(** * gh_cli_script.py: configuration resolution and the Copilot CLI runner

    A shallow embedding of [.github/scripts/gh_cli_script.py].  The script is
    effectful Python: it spawns subprocesses, reads the environment and the
    file system, writes a log and keeps a module-level singleton.  The
    embedding threads an explicit [State] through a small state-and-exception
    monad, and takes everything the operating system decides (does [git]
    exist, what does the child print, is the schema file there) from a
    [World] record.

    Text is modelled as [string] (a sequence of 8-bit characters); the Python
    text operations below are exact on ASCII text.

    The file has two parts.  The first holds the embedding: Python's text
    and path operations, values and exceptions, the monad, the primitives
    the script calls, the script itself, and the vocabulary and sample
    worlds of the statements, and the entry point [main].  The second holds
    the properties, grouped by component: metrics extractor, process runner,
    repository root, configuration resolution, schema lookup, environment
    snapshot and credential accessor; further properties of the same
    components and of the entry point follow. *)

From stdpp Require Import gmap strings list fin_maps.
From Stdlib Require Import ZArith String Ascii DecimalString.

Set Warnings "-register-all".

Open Scope string_scope.

(** ** Python text operations *)

Module PyText.

(** [str.lower] on one ASCII character.  Text is held as its UTF-8 bytes,
    and the bytes of a character beyond ASCII are left as they are: [lower],
    [strip] and [splitlines] below are those of [str] on ASCII text
    ([is_ascii]), and statements that depend on them are made for such
    text. *)
Definition lower_char (c : ascii) : ascii :=
  let n := nat_of_ascii c in
  if (65 <=? n)%nat && (n <=? 90)%nat then ascii_of_nat (n + 32) else c.

(** [s.lower()], for [s] of ASCII text. *)
Fixpoint lower (s : string) : string :=
  match s with
  | EmptyString => EmptyString
  | String c s' => String (lower_char c) (lower s')
  end.

(** [sub in s]: substring test. *)
Fixpoint contains (sub s : string) : bool :=
  String.prefix sub s ||
  match s with
  | EmptyString => false
  | String _ s' => contains sub s'
  end.

(** The ASCII characters for which [str.isspace] holds: tab, line feed,
    vertical tab, form feed, carriage return, the four separators
    0x1c..0x1f and the space. *)
Definition is_space (c : ascii) : bool :=
  let n := nat_of_ascii c in
  ((9 <=? n)%nat && (n <=? 13)%nat) || ((28 <=? n)%nat && (n <=? 32)%nat).

Fixpoint lstrip (s : string) : string :=
  match s with
  | String c s' => if is_space c then lstrip s' else s
  | EmptyString => EmptyString
  end.

Fixpoint rstrip (s : string) : string :=
  match s with
  | EmptyString => EmptyString
  | String c s' =>
      match rstrip s' with
      | EmptyString => if is_space c then EmptyString else String c EmptyString
      | r => String c r
      end
  end.

(** [s.strip()], for [s] of ASCII text. *)
Definition strip (s : string) : string := rstrip (lstrip s).

(** Line boundaries of [str.splitlines] within ASCII. *)
Definition is_linebreak (c : ascii) : bool :=
  let n := nat_of_ascii c in
  ((10 <=? n)%nat && (n <=? 13)%nat) || ((28 <=? n)%nat && (n <=? 30)%nat).

(** [s.splitlines()], for [s] of ASCII text: [cur] is the line being read,
    in reverse.  A carriage
    return followed by a line feed is one boundary, and a final boundary
    opens no empty last line. *)
Fixpoint splitlines_from (cur : string) (s : string) : list string :=
  match s with
  | EmptyString =>
      match cur with EmptyString => [] | _ => [String.rev cur] end
  | String c s' =>
      if is_linebreak c then
        let rest :=
          match s' with
          | String c' s'' =>
              if Ascii.eqb c "013" && Ascii.eqb c' "010" then s'' else s'
          | EmptyString => s'
          end in
        String.rev cur :: splitlines_from EmptyString rest
      else splitlines_from (String c cur) s'
  end.

Definition splitlines (s : string) : list string :=
  splitlines_from EmptyString s.

(** ["%d" % z]. *)
Definition decimal (z : Z) : string := NilZero.string_of_int (Z.to_int z).

Definition hex_digit (n : nat) : ascii :=
  if (n <? 10)%nat then ascii_of_nat (48 + n) else ascii_of_nat (87 + n).

(** The two-digit escape [\xNN]. *)
Definition hex_escape (c : ascii) : string :=
  let n := nat_of_ascii c in
  String "\" (String "x"
    (String (hex_digit (n / 16)) (String (hex_digit (n mod 16)) EmptyString))).

Definition has_char (c : ascii) (s : string) : bool :=
  contains (String c EmptyString) s.

Definition squote : ascii := "'".
Definition dquote : ascii := ascii_of_nat 34.

(** The quote [repr] chooses: the double quote when the text has a single
    quote and no double quote, the single quote otherwise. *)
Definition repr_quote (s : string) : ascii :=
  if has_char squote s && negb (has_char dquote s) then dquote else squote.

(** Body of [repr]: [hi] says whether characters from 0x7f on are escaped
    (they are in [bytes], and only 0x7f is in [str]). *)
Fixpoint repr_body (hi : bool) (q : ascii) (s : string) : string :=
  match s with
  | EmptyString => EmptyString
  | String c s' =>
      let n := nat_of_ascii c in
      let rest := repr_body hi q s' in
      if Ascii.eqb c q || Ascii.eqb c "\" then String "\" (String c rest)
      else if Ascii.eqb c "009" then String "\" (String "t" rest)
      else if Ascii.eqb c "010" then String "\" (String "n" rest)
      else if Ascii.eqb c "013" then String "\" (String "r" rest)
      else if (n <? 32)%nat || (n =? 127)%nat || (hi && (127 <? n)%nat)
           then hex_escape c ++ rest
      else String c rest
  end.

(** [repr(s)] for [s : str]. *)
Definition repr_str (s : string) : string :=
  let q := repr_quote s in
  String q (repr_body false q s) ++ String q EmptyString.

(** [repr(b)] for [b : bytes]. *)
Definition repr_bytes (s : string) : string :=
  let q := repr_quote s in
  String "b" (String q (repr_body true q s)) ++ String q EmptyString.

Fixpoint join (sep : string) (l : list string) : string :=
  match l with
  | [] => EmptyString
  | [x] => x
  | x :: l' => x ++ sep ++ join sep l'
  end.

(** [repr(l)] for a list of strings, which is also what ["%s" % (l,)]
    prints. *)
Definition repr_list (l : list string) : string :=
  "[" ++ join ", " (map repr_str l) ++ "]".

(** [s.split("/")]. *)
Fixpoint split_slash_from (cur : string) (s : string) : list string :=
  match s with
  | EmptyString => [String.rev cur]
  | String c s' =>
      if Ascii.eqb c "/" then String.rev cur :: split_slash_from EmptyString s'
      else split_slash_from (String c cur) s'
  end.

Definition split_slash (s : string) : list string :=
  split_slash_from EmptyString s.

End PyText.

(** ** [pathlib.Path] on a POSIX system *)

Module Pathlib.

(** A pure POSIX path: its root (empty, one slash, or two slashes) and its
    components. *)
Record Path := mkPath { anchor : string; parts : list string }.

Definition anchor_of (s : string) : string :=
  if String.prefix "///" s then "/"
  else if String.prefix "//" s then "//"
  else if String.prefix "/" s then "/"
  else EmptyString.

(** [Path(s)]: empty components and single dots are dropped. *)
Definition of_string (s : string) : Path :=
  {| anchor := anchor_of s;
     parts := List.filter (fun p => negb (String.eqb p EmptyString) && negb (String.eqb p "."))
                          (PyText.split_slash s) |}.

(** [p.parent]: the root and the empty path are their own parent. *)
Definition parent (p : Path) : Path :=
  {| anchor := anchor p; parts := removelast (parts p) |}.

(** [str(p)]. *)
Definition to_string (p : Path) : string :=
  match parts p, anchor p with
  | [], EmptyString => "."
  | ps, a => a ++ PyText.join "/" ps
  end.

End Pathlib.

(** ** Values, exceptions and the outside world *)

(** The five configuration classes of the script. *)
Inductive pyclass :=
| PathConfig | TimeoutConfig | FilePatternConfig | EnvironmentConfig | Config.

Definition class_name (c : pyclass) : string :=
  match c with
  | PathConfig => "PathConfig"
  | TimeoutConfig => "TimeoutConfig"
  | FilePatternConfig => "FilePatternConfig"
  | EnvironmentConfig => "EnvironmentConfig"
  | Config => "Config"
  end.

(** Python values: what [json.load] can return ([None], booleans, numbers,
    strings, lists, dictionaries), paths, and instances of the configuration
    classes.  An instance carries its identity [oid] (two instances are the
    same object exactly when their identities agree) and its attribute
    dictionary.  A float is kept as its IEEE-754 bit pattern. *)
Inductive pyval :=
| VNone
| VBool (b : bool)
| VInt (z : Z)
| VFloat (bits : Z)
| VStr (s : string)
| VList (l : list pyval)
| VDict (d : gmap string pyval)
| VPath (p : Pathlib.Path)
| VObj (oid : nat) (cls : pyclass) (attrs : gmap string pyval).

(** What [subprocess] captured of a stream: nothing, text ([text=True]) or
    bytes. *)
Inductive captured :=
| NotCaptured
| CapturedText (s : string)
| CapturedBytes (s : string).

(** The exceptions that occur.  [OSError] stands for an [OSError] of the
    class its [errno] selects, the two classes named before it apart; the
    script tells none of them from another. *)
Inductive exn :=
| ConfigurationError (msg : string)
| AgentError (msg : string)
| CalledProcessError (returncode : Z) (cmd : list string) (stderr : captured)
| TimeoutExpired (cmd : list string) (timeout : Z)
| FileNotFoundError (filename : string)
| PermissionError (filename : string)
| OSError (errno : Z) (strerror : string) (filename : option string)
| BrokenPipeError
| JSONDecodeError (msg : string)
| UnicodeDecodeError (reason : string)
| ValueError (msg : string)
| TypeError (msg : string)
| AttributeError (msg : string).

Inductive result (A : Type) :=
| Ok (a : A)
| Raise (e : exn).
Arguments Ok {A} a.
Arguments Raise {A} e.

(** Why the operating system refused to start a process or open a file. *)
Inductive os_failure :=
| NoSuchFile
| NoPermission
| OtherFailure (errno : Z) (strerror : string).

Definition exn_of_os_failure (f : os_failure) (filename : string) : exn :=
  match f with
  | NoSuchFile => FileNotFoundError filename
  | NoPermission => PermissionError filename
  | OtherFailure n msg => OSError n msg (Some filename)
  end.

(** Why a child process could not be started.  The executable or the
    working directory was refused, and the error names that file (the
    working directory when that is what the child could not enter); or the
    system had no resources for the pipes or the new process, and the error
    names no file. *)
Inductive start_failure :=
| Refused (why : os_failure) (filename : string)
| NoResources (errno : Z) (strerror : string).

Definition exn_of_start_failure (f : start_failure) : exn :=
  match f with
  | Refused why filename => exn_of_os_failure why filename
  | NoResources n msg => OSError n msg None
  end.

(** Outcome of a child process that is waited for without a time limit:
    it was started and exited, or it could not be started. *)
Inductive child_outcome :=
| Exited (returncode : Z) (out err : string)
| NotStarted (f : start_failure).

(** Outcome of a child whose output is read as text ([text=True]): it exited
    and its output is text in the locale's encoding ([out] and [err] are
    that text), or it exited and some of its output does not decode, or it
    could not be started. *)
Inductive git_outcome :=
| GitExited (returncode : Z) (out err : string)
| GitUndecodable (returncode : Z) (reason : string)
| GitNotStarted (f : start_failure).

(** Why writing to [sys.stdout.buffer] and flushing it failed: the device
    refused (no space left, say), the reader of the pipe is gone, the stream
    is closed, or the process has no standard output at all. *)
Inductive write_failure :=
| WriteRefused (errno : Z) (strerror : string)
| PipeBroken
| StreamClosed
| NoStdout.

Definition exn_of_write_failure (f : write_failure) : exn :=
  match f with
  | WriteRefused n msg => OSError n msg None
  | PipeBroken => BrokenPipeError
  | StreamClosed => ValueError "write to closed file"
  | NoStdout => AttributeError "'NoneType' object has no attribute 'buffer'"
  end.

(** Outcome under [timeout=]: as above, or the limit passed first. *)
Inductive timed_outcome :=
| Within (o : child_outcome)
| Expired.

(** What a path holds when the script opens it and parses it as JSON: it
    cannot be opened, its bytes are not text in the locale's encoding, its
    text is not JSON, or it parses. *)
Inductive file_state :=
| Missing (why : os_failure)
| NotText (reason : string)
| Malformed (msg : string)
| Json (v : pyval).

(** Everything the script asks of its surroundings. *)
Record World := {
  script_file : string;                 (* __file__ *)
  git_rev_parse : string -> git_outcome;     (* git rev-parse, by cwd *)
  which : string -> option string;      (* shutil.which *)
  copilot_run : list string -> string -> gmap string string -> timed_outcome;
                                        (* the agent, by argv, cwd and env *)
  read_json : string -> file_state;     (* open + json.load, by path *)
  dotenv_values : gmap string string;   (* bindings load_dotenv finds *)
  signal_name : Z -> option string;     (* signal.Signals, by number *)
  stdout_write : string -> option write_failure
                                        (* write and flush of sys.stdout.buffer *)
}.

Inductive level := INFO | WARNING | ERROR.

(** Observable effects. *)
Inductive event :=
| Log (lv : level) (msg : string)
| WhichLookup (name : string)
| Spawn (argv : list string) (cwd : string)
| StdoutWrite (data : string)
| DotenvLoaded
| Opened (path : string).

(** The mutable state of the process: the module global [_config], the
    environment [os.environ], the next fresh object identity, and the
    effects so far (latest first). *)
Record State := {
  _config : pyval;
  environ : gmap string string;
  next_oid : nat;
  trace : list event
}.

(** ** The state-and-exception monad *)

Definition M (A : Type) : Type := State -> result A * State.

Definition ret {A} (a : A) : M A := fun s => (Ok a, s).

Definition raise {A} (e : exn) : M A := fun s => (Raise e, s).

Definition bind {A B} (m : M A) (k : A -> M B) : M B :=
  fun s =>
    match m s with
    | (Ok a, s') => k a s'
    | (Raise e, s') => (Raise e, s')
    end.

Declare Scope py_scope.
Delimit Scope py_scope with py.
Notation "x <- m ;; k" := (bind m (fun x => k))
  (at level 100, m at next level, right associativity) : py_scope.
Notation "m ;; k" := (bind m (fun _ => k))
  (at level 100, right associativity) : py_scope.
Open Scope py_scope.

(** [try: body  except ...: handler]: [handler e] is [None] when no clause
    matches [e], which then propagates. *)
Definition try_except {A} (body : M A) (handler : exn -> option (M A)) : M A :=
  fun s =>
    match body s with
    | (Ok a, s') => (Ok a, s')
    | (Raise e, s') =>
        match handler e with
        | Some h => h s'
        | None => (Raise e, s')
        end
    end.

Definition lift {A} (r : result A) : M A := fun s => (r, s).

Definition emit (ev : event) : M unit :=
  fun s => (Ok tt, {| _config := _config s; environ := environ s;
                      next_oid := next_oid s; trace := ev :: trace s |}).

Definition get_environ : M (gmap string string) := fun s => (Ok (environ s), s).

Definition set_environ (env : gmap string string) : M unit :=
  fun s => (Ok tt, {| _config := _config s; environ := env;
                      next_oid := next_oid s; trace := trace s |}).

Definition read_config_global : M pyval := fun s => (Ok (_config s), s).

Definition write_config_global (v : pyval) : M unit :=
  fun s => (Ok tt, {| _config := v; environ := environ s;
                      next_oid := next_oid s; trace := trace s |}).

Definition fresh_oid : M nat :=
  fun s => (Ok (next_oid s), {| _config := _config s; environ := environ s;
                                next_oid := S (next_oid s); trace := trace s |}).

Fixpoint for_each {A} (l : list A) (body : A -> M unit) : M unit :=
  match l with
  | [] => ret tt
  | x :: l' => body x ;; for_each l' body
  end.

Definition logger_info (msg : string) : M unit := emit (Log INFO msg).
Definition logger_warning (msg : string) : M unit := emit (Log WARNING msg).
Definition logger_error (msg : string) : M unit := emit (Log ERROR msg).
(** [logger.exception] logs at level ERROR (and appends the traceback). *)
Definition logger_exception (msg : string) : M unit := emit (Log ERROR msg).

(** ** Python primitives the script relies on *)

Definition type_name (v : pyval) : string :=
  match v with
  | VNone => "NoneType"
  | VBool _ => "bool"
  | VInt _ => "int"
  | VFloat _ => "float"
  | VStr _ => "str"
  | VList _ => "list"
  | VDict _ => "dict"
  | VPath _ => "PosixPath"
  | VObj _ c _ => class_name c
  end.

Definition no_attribute (v : pyval) (name : string) : exn :=
  AttributeError ("'" ++ type_name v ++ "' object has no attribute '" ++ name ++ "'").

(** Calling a class, [cls(k1=v1, ...)].  None of the five classes defines
    [__init__] or [__new__], none has a base class and none is decorated: the
    annotations in a class body ([root: Path]) only fill [__annotations__].
    The call therefore runs the constructor of [object], which returns a
    fresh instance without attributes when it is given no argument and
    raises [TypeError] when it is given any. *)
Definition py_call_class (c : pyclass) (kwargs : list (string * pyval)) : M pyval :=
  match kwargs with
  | [] => oid <- fresh_oid ;; ret (VObj oid c ∅)
  | _ :: _ => raise (TypeError (class_name c ++ "() takes no arguments"))
  end.

(** [v.name] for the data attributes the script reads
    ([dataset_schema_path], [env], [ado_token]): the value in the instance
    dictionary, [AttributeError] when there is none. *)
Definition py_getattr (v : pyval) (name : string) : M pyval :=
  match v with
  | VObj _ _ attrs =>
      match attrs !! name with
      | Some x => ret x
      | None => raise (no_attribute v name)
      end
  | _ => raise (no_attribute v name)
  end.

(** [v.get(key, dflt)]: among the values here only a dictionary has [get]. *)
Definition py_get (v : pyval) (key : string) (dflt : pyval) : result pyval :=
  match v with
  | VDict d => Ok (default dflt (d !! key))
  | _ => Raise (no_attribute v "get")
  end.

(** Truth value of [v], as [not v] and [if v] test it. *)
Definition py_truthy (v : pyval) : bool :=
  match v with
  | VNone => false
  | VBool b => b
  | VInt z => negb (z =? 0)%Z
  | VFloat bits => negb ((bits =? 0)%Z || (bits =? 2 ^ 63)%Z)
  | VStr s => negb (String.eqb s EmptyString)
  | VList l => match l with [] => false | _ => true end
  | VDict d => match map_to_list d with [] => false | _ => true end
  | VPath _ => true
  | VObj _ _ _ => true
  end.

Definition is_None (v : pyval) : bool :=
  match v with VNone => true | _ => false end.

(** [os.getenv(name)] on the environment [env]. *)
Definition os_getenv (env : gmap string string) (name : string) : pyval :=
  match env !! name with
  | Some v => VStr v
  | None => VNone
  end.

(** [v == s] for a string literal [s]. *)
Definition py_eq_str (v : pyval) (s : string) : bool :=
  match v with
  | VStr t => String.eqb t s
  | _ => false
  end.

Definition format_captured (c : captured) : string :=
  match c with
  | NotCaptured => "None"
  | CapturedText s => s
  | CapturedBytes s => PyText.repr_bytes s
  end.

(** [str(e)].  For [CalledProcessError] this is [subprocess]'s [__str__]: it
    prints the command and the exit status, or the signal for a negative
    status, and never the captured output. *)
Definition exn_str (w : World) (e : exn) : string :=
  match e with
  | ConfigurationError msg | AgentError msg | JSONDecodeError msg
  | TypeError msg | AttributeError msg => msg
  | CalledProcessError rc cmd _ =>
      if (rc <? 0)%Z then
        match signal_name w (- rc) with
        | Some name =>
            "Command '" ++ PyText.repr_list cmd ++ "' died with <Signals." ++ name
              ++ ": " ++ PyText.decimal (- rc) ++ ">."
        | None =>
            "Command '" ++ PyText.repr_list cmd ++ "' died with unknown signal "
              ++ PyText.decimal (- rc) ++ "."
        end
      else
        "Command '" ++ PyText.repr_list cmd ++ "' returned non-zero exit status "
          ++ PyText.decimal rc ++ "."
  | TimeoutExpired cmd t =>
      "Command '" ++ PyText.repr_list cmd ++ "' timed out after "
        ++ PyText.decimal t ++ " seconds"
  | FileNotFoundError f => "[Errno 2] No such file or directory: " ++ PyText.repr_str f
  | PermissionError f => "[Errno 13] Permission denied: " ++ PyText.repr_str f
  | OSError n msg None => "[Errno " ++ PyText.decimal n ++ "] " ++ msg
  | OSError n msg (Some f) =>
      "[Errno " ++ PyText.decimal n ++ "] " ++ msg ++ ": " ++ PyText.repr_str f
  | BrokenPipeError => "[Errno 32] Broken pipe"
  | UnicodeDecodeError reason => reason
  | ValueError msg => msg
  end.

(** [load_dotenv()]: a binding of the [.env] file is added to [os.environ]
    unless the variable is already set there. *)
Definition load_dotenv (w : World) : M unit :=
  emit DotenvLoaded ;;
  env <- get_environ ;;
  set_environ (env ∪ dotenv_values w).

(** [with open(path) as f: json.load(f)]. *)
Definition open_json_load (w : World) (path : pyval) : M pyval :=
  let read (p : string) : M pyval :=
    emit (Opened p) ;;
    match read_json w p with
    | Missing why => raise (exn_of_os_failure why p)
    | NotText reason => raise (UnicodeDecodeError reason)
    | Malformed msg => raise (JSONDecodeError msg)
    | Json v => ret v
    end in
  match path with
  | VStr p => read p
  | VPath p => read (Pathlib.to_string p)
  | _ => raise (TypeError ("expected str, bytes or os.PathLike object, not "
                             ++ type_name path))
  end.

(** [sys.stdout.buffer.write(data); sys.stdout.buffer.flush()] (lines
    220-221): the attempt is an event, and it may fail. *)
Definition stdout_buffer_write (w : World) (data : string) : M unit :=
  emit (StdoutWrite data) ;;
  match stdout_write w data with
  | None => ret tt
  | Some f => raise (exn_of_write_failure f)
  end.

(** [shutil.which(name)]. *)
Definition shutil_which (w : World) (name : string) : M (option string) :=
  emit (WhichLookup name) ;; ret (which w name).

(** ** The script *)

Definition git_cmd : list string := ["git"; "rev-parse"; "--show-toplevel"].

(** [subprocess.run(git_cmd, capture_output=True, text=True, check=True,
    cwd=cwd).stdout]: with [check=True] a non-zero exit status raises
    [CalledProcessError]; output that does not decode raises
    [UnicodeDecodeError], before the exit status is looked at; a process
    that cannot be started raises the operating system's error. *)
Definition run_git (w : World) (cwd : Pathlib.Path) : M string :=
  emit (Spawn git_cmd (Pathlib.to_string cwd)) ;;
  match git_rev_parse w (Pathlib.to_string cwd) with
  | GitExited rc out err =>
      if (rc =? 0)%Z then ret out
      else raise (CalledProcessError rc git_cmd (CapturedText err))
  | GitUndecodable _ reason => raise (UnicodeDecodeError reason)
  | GitNotStarted f => raise (exn_of_start_failure f)
  end.

(** [_get_git_root] (lines 33-46). *)
Definition _get_git_root (w : World) : M Pathlib.Path :=
  let here := Pathlib.of_string (script_file w) in
  try_except
    (stdout <- run_git w (Pathlib.parent here) ;;
     ret (Pathlib.of_string (PyText.strip stdout)))
    (fun e =>
       match e with
       | CalledProcessError _ _ _ =>
           Some (ret (Pathlib.parent (Pathlib.parent (Pathlib.parent here))))
       | _ => None
       end).

(** [PathConfig.from_root] (lines 54-59). *)
Definition PathConfig_from_root (root : Pathlib.Path) : M pyval :=
  py_call_class PathConfig [("root", VPath root)].

(** [TimeoutConfig.default] (lines 70-78). *)
Definition TimeoutConfig_default : M pyval :=
  py_call_class TimeoutConfig
    [("build_baseapp", VInt (30 * 60));
     ("build_app", VInt (5 * 60));
     ("test_execution", VInt (3 * 60));
     ("github_copilot_cli", VInt (30 * 60))].

(** [FilePatternConfig.default] (lines 92-103). *)
Definition FilePatternConfig_default (instance_pattern : pyval) : M pyval :=
  py_call_class FilePatternConfig
    [("trajectory_pattern", VStr ".traj.json");
     ("patch_pattern", VStr ".patch");
     ("instance_pattern", instance_pattern);
     ("result_pattern", VStr ".jsonl");
     ("copilot_instruction_naming", VStr "copilot-instructions.md");
     ("copilot_instructions_dirname", VStr "instructions");
     ("copilot_instructions_pattern", VStr "*.instructions.md")].

(** The keyword arguments [EnvironmentConfig.from_environment] evaluates
    (lines 122-126). *)
Definition from_environment_kwargs (env : gmap string string) : list (string * pyval) :=
  [("ado_token", os_getenv env "ADO_TOKEN");
   ("github_output", os_getenv env "GITHUB_OUTPUT");
   ("github_step_summary", os_getenv env "GITHUB_STEP_SUMMARY");
   ("github_actions", VBool (py_eq_str (os_getenv env "GITHUB_ACTIONS") "true"));
   ("runner_debug", VBool (py_eq_str (os_getenv env "RUNNER_DEBUG") "1"))].

(** [EnvironmentConfig.from_environment] (lines 118-127). *)
Definition EnvironmentConfig_from_environment : M pyval :=
  env <- get_environ ;;
  py_call_class EnvironmentConfig (from_environment_kwargs env).

(** The value of a keyword argument in an argument list. *)
Definition kwarg (name : string) (kwargs : list (string * pyval)) : option pyval :=
  snd <$> List.find (fun kv => String.eqb (fst kv) name) kwargs.

(** [schema.get("properties", {}).get("instance_id", {}).get("pattern")]
    (line 146). *)
Definition schema_instance_pattern (schema : pyval) : result pyval :=
  match py_get schema "properties" (VDict ∅) with
  | Raise e => Raise e
  | Ok properties =>
      match py_get properties "instance_id" (VDict ∅) with
      | Raise e => Raise e
      | Ok instance_id => py_get instance_id "pattern" VNone
      end
  end.

(** [Config.load] from line 143 on, for the path configuration of line
    141. *)
Definition Config_load_from (w : World) (path_config : pyval) : M pyval :=
  schema_path <- py_getattr path_config "dataset_schema_path" ;;
  schema <- open_json_load w schema_path ;;
  instance_pattern <- lift (schema_instance_pattern schema) ;;
  env <- EnvironmentConfig_from_environment ;;
  timeout <- TimeoutConfig_default ;;
  file_patterns <- FilePatternConfig_default instance_pattern ;;
  py_call_class Config
    [("paths", path_config); ("env", env); ("timeout", timeout);
     ("file_patterns", file_patterns)].

(** [Config.load] (lines 138-153). *)
Definition Config_load (w : World) : M pyval :=
  root <- _get_git_root w ;;
  path_config <- PathConfig_from_root root ;;
  Config_load_from w path_config.

(** [Config.resolve_ado_token] (lines 155-158). *)
Definition resolve_ado_token (self : pyval) : M pyval :=
  env <- py_getattr self "env" ;;
  ado_token <- py_getattr env "ado_token" ;;
  if negb (py_truthy ado_token)
  then raise (ConfigurationError "ADO_TOKEN environment variable is required")
  else ret ado_token.

(** [get_config] (lines 166-172). *)
Definition get_config (w : World) : M pyval :=
  cached <- read_config_global ;;
  (if is_None cached then
     load_dotenv w ;;
     loaded <- Config_load w ;;
     write_config_global loaded
   else ret tt) ;;
  read_config_global.

(** [parse_metrics] (lines 237-243): the dictionary [metrics] is created
    empty and the loop only logs. *)
Definition parse_metrics (stderr_lines : list string) : M pyval :=
  let metrics : gmap string pyval := ∅ in
  for_each stderr_lines
    (fun line =>
       if PyText.contains "tokens" (PyText.lower line)
          || PyText.contains "cost" (PyText.lower line)
       then logger_info ("Metric: " ++ line)
       else ret tt) ;;
  ret (if py_truthy (VDict metrics) then VDict metrics else VNone).

(** The argument vector of the agent (lines 190-199). *)
Definition cmd_args (copilot_cmd : string) : list string :=
  [copilot_cmd;
   "--allow-all-tools";
   "--allow-all-paths";
   "--disable-builtin-mcps";
   "--model=claude-haiku-4.5";
   "--log-level=debug";
   "--prompt= What is the meaning and structure of this repository? After you reply, use gh to make a hello world on the last PR";
   "--no-custom-instructions"].

(** [subprocess.run(argv, cwd=cwd, stderr=PIPE, timeout=300, check=True,
    env=env).stderr] (lines 210-217). *)
Definition run_copilot (w : World) (argv : list string) (cwd : string)
    (env : gmap string string) : M string :=
  emit (Spawn argv cwd) ;;
  match copilot_run w argv cwd env with
  | Expired => raise (TimeoutExpired argv 300)
  | Within (Exited rc _ err) =>
      if (rc =? 0)%Z then ret err
      else raise (CalledProcessError rc argv (CapturedBytes err))
  | Within (NotStarted f) => raise (exn_of_start_failure f)
  end.

(** [b.decode("utf-8", errors="replace")]: the identity on ASCII, which is
    the text this model covers. *)
Definition decode_utf8_replace (b : string) : string := b.

Definition captured_stderr (e : exn) : captured :=
  match e with
  | CalledProcessError _ _ c => c
  | _ => NotCaptured
  end.

(** [run_copilot_agent] (lines 174-234).  The pair returned is the metrics
    and the success flag. *)
Definition run_copilot_agent (w : World) (repo_path : Pathlib.Path) : M (pyval * bool) :=
  logger_info "Running GitHub Copilot CLI" ;;
  logger_info ("Executing Copilot CLI in directory: " ++ Pathlib.to_string repo_path) ;;
  copilot_cmd <- shutil_which w "copilot" ;;
  match copilot_cmd with
  | None | Some EmptyString =>
      raise (AgentError
        "Copilot CLI not found in PATH. Please ensure it is installed and available.")
  | Some copilot_cmd =>
      try_except
        (env <- get_environ ;;
         (if negb (py_truthy (os_getenv env "GH_TOKEN"))
          then logger_warning "GH_TOKEN not found in environment"
          else ret tt) ;;
         result_stderr <- run_copilot w (cmd_args copilot_cmd)
                            (Pathlib.to_string repo_path) env ;;
         (if py_truthy (VStr result_stderr)
          then stdout_buffer_write w result_stderr
          else ret tt) ;;
         logger_info "Copilot CLI run complete" ;;
         let stderr := if py_truthy (VStr result_stderr)
                       then decode_utf8_replace result_stderr else EmptyString in
         metrics <- parse_metrics (PyText.splitlines stderr) ;;
         ret (metrics, true))
        (fun e =>
           match e with
           | TimeoutExpired _ _ =>
               Some (logger_error "Copilot CLI timed out after 300 seconds" ;;
                     ret (VNone, false))
           | CalledProcessError _ _ _ =>
               Some (logger_error ("Copilot CLI execution failed with error "
                                     ++ format_captured (captured_stderr e)) ;;
                     raise (AgentError ("Copilot CLI execution failed: " ++ exn_str w e)))
           | _ =>
               Some (logger_exception ("Unexpected error running Copilot CLI: "
                                         ++ exn_str w e) ;;
                     raise e)
           end)
  end.

(** ** Vocabulary of the statements *)

(** [s] after the events [evs] (latest first) and nothing else. *)
Definition add_events (evs : list event) (s : State) : State :=
  {| _config := _config s; environ := environ s; next_oid := next_oid s;
     trace := evs ++ trace s |}.

(** The test of line 241. *)
Definition mentions_metric (line : string) : bool :=
  PyText.contains "tokens" (PyText.lower line)
  || PyText.contains "cost" (PyText.lower line).

(** What [parse_metrics] logs for [lines], latest first. *)
Definition metric_logs (lines : list string) : list event :=
  rev (map (fun line => Log INFO ("Metric: " ++ line))
           (List.filter mentions_metric lines)).

Definition is_spawn (ev : event) : bool :=
  match ev with Spawn _ _ => true | _ => false end.

Definition is_lookup (ev : event) : bool :=
  match ev with WhichLookup _ => true | _ => false end.

Definition agent_missing_msg : string :=
  "Copilot CLI not found in PATH. Please ensure it is installed and available.".

(** The message of the [AgentError] raised for exit status [rc]: it is built
    from the command and the status alone. *)
Definition agent_failure_msg (w : World) (copilot_cmd : string) (rc : Z) : string :=
  "Copilot CLI execution failed: "
    ++ exn_str w (CalledProcessError rc (cmd_args copilot_cmd) NotCaptured).

Definition gh_token_events (env : gmap string string) : list event :=
  if negb (py_truthy (os_getenv env "GH_TOKEN"))
  then [Log WARNING "GH_TOKEN not found in environment"] else [].

Definition prologue_events (repo_path : Pathlib.Path) : list event :=
  [WhichLookup "copilot";
   Log INFO ("Executing Copilot CLI in directory: " ++ Pathlib.to_string repo_path);
   Log INFO "Running GitHub Copilot CLI"].

Definition relayed_stderr (err : string) : list event :=
  if py_truthy (VStr err) then [StdoutWrite err] else [].

(** The events of a call that reached [subprocess.run], latest first. *)
Definition spawn_events (copilot_cmd : string) (repo_path : Pathlib.Path)
    (env : gmap string string) : list event :=
  [Spawn (cmd_args copilot_cmd) (Pathlib.to_string repo_path)]
    ++ gh_token_events env ++ prologue_events repo_path.

(** Where [git] is run, and where [_get_git_root] falls back to. *)
Definition git_cwd (w : World) : Pathlib.Path :=
  Pathlib.parent (Pathlib.of_string (script_file w)).

Definition fallback_root (w : World) : Pathlib.Path :=
  Pathlib.parent (Pathlib.parent (Pathlib.parent (Pathlib.of_string (script_file w)))).

Definition git_spawned (w : World) : event :=
  Spawn git_cmd (Pathlib.to_string (git_cwd w)).

(** The exception [Config.load] ends with. *)
Definition load_failure (w : World) : exn :=
  match git_rev_parse w (Pathlib.to_string (git_cwd w)) with
  | GitExited _ _ _ => TypeError "PathConfig() takes no arguments"
  | GitUndecodable _ reason => UnicodeDecodeError reason
  | GitNotStarted f => exn_of_start_failure f
  end.

(** The state after [load_dotenv()]. *)
Definition after_dotenv (w : World) (s : State) : State :=
  {| _config := _config s; environ := environ s ∪ dotenv_values w;
     next_oid := next_oid s; trace := DotenvLoaded :: trace s |}.

(** A schema document, parsed to a dictionary, in which
    [properties.instance_id.pattern] is absent because a key is missing at
    one of the three levels, every level that is present being a
    dictionary. *)
Inductive lacks_pattern (d : gmap string pyval) : Prop :=
| no_properties :
    d !! "properties" = None → lacks_pattern d
| no_instance_id (p : gmap string pyval) :
    d !! "properties" = Some (VDict p) → p !! "instance_id" = None →
    lacks_pattern d
| no_pattern (p i : gmap string pyval) :
    d !! "properties" = Some (VDict p) → p !! "instance_id" = Some (VDict i) →
    i !! "pattern" = None → lacks_pattern d.

(** ** Concrete worlds *)

Definition newline : string := String "010" EmptyString.

(** A checkout at [/repo] with the agent installed: [git] answers, the
    schema is an empty JSON object, the agent exits with status 0 and
    prints one line of telemetry on its standard error. *)
Definition w_healthy : World := {|
  script_file := "/repo/.github/scripts/gh_cli_script.py";
  git_rev_parse := fun _ => GitExited 0 ("/repo" ++ newline) EmptyString;
  which := fun name =>
    if String.eqb name "copilot" then Some "/usr/bin/copilot" else None;
  copilot_run := fun _ _ _ => Within (Exited 0 EmptyString ("tokens: 42" ++ newline));
  read_json := fun _ => Json (VDict ∅);
  dotenv_values := ∅;
  signal_name := fun n => if (n =? 9)%Z then Some "SIGKILL" else None;
  stdout_write := fun _ => None
|}.

Definition with_git (o : git_outcome) (w : World) : World := {|
  script_file := script_file w; git_rev_parse := fun _ => o; which := which w;
  copilot_run := copilot_run w; read_json := read_json w;
  dotenv_values := dotenv_values w; signal_name := signal_name w;
  stdout_write := stdout_write w |}.

Definition with_agent (o : timed_outcome) (w : World) : World := {|
  script_file := script_file w; git_rev_parse := git_rev_parse w; which := which w;
  copilot_run := fun _ _ _ => o; read_json := read_json w;
  dotenv_values := dotenv_values w; signal_name := signal_name w;
  stdout_write := stdout_write w |}.

Definition with_schema (f : file_state) (w : World) : World := {|
  script_file := script_file w; git_rev_parse := git_rev_parse w; which := which w;
  copilot_run := copilot_run w; read_json := fun _ => f;
  dotenv_values := dotenv_values w; signal_name := signal_name w;
  stdout_write := stdout_write w |}.

Definition without_agent (w : World) : World := {|
  script_file := script_file w; git_rev_parse := git_rev_parse w;
  which := fun _ => None;
  copilot_run := copilot_run w; read_json := read_json w;
  dotenv_values := dotenv_values w; signal_name := signal_name w;
  stdout_write := stdout_write w |}.

(** [git] is not installed. *)
Definition w_git_absent : World := with_git (GitNotStarted (Refused NoSuchFile "git")) w_healthy.


(** The schema document parses, to an object whose [properties] is a number. *)
Definition schema_odd : gmap string pyval := {[ "properties" := VInt 5 ]}.
Definition w_schema_odd : World := with_schema (Json (VDict schema_odd)) w_healthy.

(** The agent exits with status 1 after printing [boom] on standard error. *)
Definition w_agent_fails : World :=
  with_agent (Within (Exited 1 EmptyString "boom")) w_healthy.

(** The agent does not finish within the time limit. *)
Definition w_agent_hangs : World := with_agent Expired w_healthy.

(** The agent is not on the search path. *)
Definition w_agent_absent : World := without_agent w_healthy.

(** A process that has just imported the script. *)
Definition s_fresh : State :=
  {| _config := VNone; environ := ∅; next_oid := 0; trace := [] |}.

Definition repo : Pathlib.Path := Pathlib.of_string "/repo".

(** A configuration object whose snapshot holds the token of [env]. *)
Definition snapshot_of (env : gmap string string) : pyval :=
  VObj 1 EnvironmentConfig {[ "ado_token" := os_getenv env "ADO_TOKEN" ]}.

Definition config_of (env : gmap string string) : pyval :=
  VObj 0 Config {[ "env" := snapshot_of env ]}.

(** ** The entry point *)

(** [p / segment]: a segment that is itself absolute replaces [p]. *)
Definition joinpath (p : Pathlib.Path) (segment : string) : Pathlib.Path :=
  let q := Pathlib.of_string segment in
  match Pathlib.anchor q with
  | EmptyString =>
      Pathlib.mkPath (Pathlib.anchor p) (Pathlib.parts p ++ Pathlib.parts q)
  | _ => q
  end.

(** What [main] asks beyond [World]: the working directory, and whether a
    directory can be made ([None] when [mkdir(exist_ok=True)] succeeds, the
    directory being there afterwards). *)
Record Host := {
  world : World;
  cwd : Pathlib.Path;
  mkdir : string -> option os_failure
}.

(** How [main] ends when no exception leaves it: by falling off its end, or
    through [sys.exit].  The exit status of the process is not modelled: it
    depends also on what the interpreter does after [main], such as the
    last flush of the standard output. *)
Inductive termination :=
| Returned
| SysExit (code : Z).

(** The process as [main] sees it: the state above and the directories
    [mkdir] was called on (latest first). *)
Record Process := {
  proc : State;
  made : list string
}.

Definition MP (A : Type) : Type := Process -> result A * Process.

Definition retP {A} (a : A) : MP A := fun p => (Ok a, p).

Definition bindP {A B} (m : MP A) (k : A -> MP B) : MP B :=
  fun p =>
    match m p with
    | (Ok a, p') => k a p'
    | (Raise e, p') => (Raise e, p')
    end.

Definition try_exceptP {A} (body : MP A) (handler : exn -> option (MP A)) : MP A :=
  fun p =>
    match body p with
    | (Ok a, p') => (Ok a, p')
    | (Raise e, p') =>
        match handler e with
        | Some h => h p'
        | None => (Raise e, p')
        end
    end.

(** A computation on the state, run inside the process. *)
Definition in_proc {A} (m : M A) : MP A :=
  fun p =>
    match m (proc p) with
    | (r, s') => (r, {| proc := s'; made := made p |})
    end.

Declare Scope main_scope.
Delimit Scope main_scope with main.
Notation "x <- m ;; k" := (bindP m (fun x => k))
  (at level 100, m at next level, right associativity) : main_scope.
Notation "m ;; k" := (bindP m (fun _ => k))
  (at level 100, right associativity) : main_scope.

(** [path.mkdir(exist_ok=True)]. *)
Definition path_mkdir (h : Host) (path : Pathlib.Path) : MP unit :=
  fun p =>
    let name := Pathlib.to_string path in
    let p' := {| proc := proc p; made := name :: made p |} in
    match mkdir h name with
    | None => (Ok tt, p')
    | Some why => (Raise (exn_of_os_failure why name), p')
    end.

Section Main.

(** [str(metrics)] in the log record of line 266.  Dictionaries print in
    insertion order, which [gmap] does not keep, so the text is left
    open. *)
Variable str_of : pyval -> string.

(** [main] (lines 246-277).  The locals [model] and [prompt] are unused. *)
Definition main (h : Host) : MP termination :=
  (in_proc (logger_info "=== GitHub Copilot CLI Agent Runner ===") ;;
   let repo_path := cwd h in
   let output_dir := joinpath repo_path "copilot_logs" in
   path_mkdir h output_dir ;;
   ended <-
     try_exceptP
       (r <- in_proc (run_copilot_agent (world h) repo_path) ;;
        (if snd r then
           in_proc (logger_info "✓ Copilot CLI execution completed successfully") ;;
           (if py_truthy (fst r)
            then in_proc (logger_info ("Metrics collected: " ++ str_of (fst r)))
            else retP tt)
         else
           in_proc (logger_warning "⚠ Copilot CLI execution completed with warnings")) ;;
        retP Returned)
       (fun e =>
          match e with
          | AgentError _ =>
              Some (in_proc (logger_error ("✗ Agent error: " ++ exn_str (world h) e)) ;;
                    retP (SysExit 1))
          | _ =>
              Some (in_proc (logger_exception
                               ("✗ Unexpected error: " ++ exn_str (world h) e)) ;;
                    retP (SysExit 1))
          end) ;;
   match ended with
   | Returned => in_proc (logger_info "=== Script completed ===") ;; retP Returned
   | SysExit c => retP (SysExit c)
   end)%main.

End Main.

(** ** More vocabulary *)

(** The events between [s] and a later state [s'], latest first. *)
Definition new_events (s s' : State) : list event :=
  take (List.length (trace s') - List.length (trace s)) (trace s').

Definition is_stdout_write (ev : event) : bool :=
  match ev with StdoutWrite _ => true | _ => false end.

(** Whether the executable was found, as line 186 tests it. *)
Definition found_agent (w : World) : option string :=
  match which w "copilot" with
  | None | Some EmptyString => None
  | Some cmd => Some cmd
  end.

(** A process at its start, in a given environment. *)
Definition p_start (env : gmap string string) : Process :=
  {| proc := {| _config := VNone; environ := env; next_oid := 0; trace := [] |};
     made := [] |}.

Definition host_of (w : World) : Host :=
  {| world := w; cwd := repo; mkdir := fun _ => None |}.

(** The working directory cannot be written to. *)
Definition host_readonly (w : World) : Host :=
  {| world := w; cwd := repo; mkdir := fun _ => Some NoPermission |}.

Definition no_text : pyval -> string := fun _ => EmptyString.

(** The first log record of [main], and the directory it makes. *)
Definition banner : event := Log INFO "=== GitHub Copilot CLI Agent Runner ===".

Definition logs_dir (h : Host) : string :=
  Pathlib.to_string (joinpath (cwd h) "copilot_logs").

Definition gh_token_warning : event :=
  Log WARNING "GH_TOKEN not found in environment".

Definition script_completed : event := Log INFO "=== Script completed ===".

(** Text made of white space only. *)
Fixpoint all_space (s : string) : bool :=
  match s with
  | EmptyString => true
  | String c s' => PyText.is_space c && all_space s'
  end.

(** A schema on which every [get] of line 146 finds a dictionary to ask. *)
Definition well_shaped (schema : pyval) : bool :=
  match schema with
  | VDict d =>
      match d !! "properties" with
      | None => true
      | Some (VDict p) =>
          match p !! "instance_id" with
          | None | Some (VDict _) => true
          | Some _ => false
          end
      | Some _ => false
      end
  | _ => false
  end.

(** The variables [EnvironmentConfig.from_environment] reads. *)
Definition snapshot_variables : list string :=
  ["ADO_TOKEN"; "GITHUB_OUTPUT"; "GITHUB_STEP_SUMMARY"; "GITHUB_ACTIONS"; "RUNNER_DEBUG"].

(** Text made of ASCII characters only, on which the text operations above
    are exact. *)
Fixpoint is_ascii (s : string) : bool :=
  match s with
  | EmptyString => true
  | String c s' => (nat_of_ascii c <? 128)%nat && is_ascii s'
  end.

(** A log record that starts like the one of line 266. *)
Definition is_metrics_collected (ev : event) : bool :=
  match ev with
  | Log _ msg => String.prefix "Metrics collected" msg
  | _ => false
  end.

(** How the relay of lines 219-221 fails for the standard error [err], if
    it does: nothing is written when [err] is empty. *)
Definition relay_failure (w : World) (err : string) : option write_failure :=
  if py_truthy (VStr err) then stdout_write w err else None.


(** A path configuration with the attribute line 143 reads. *)
Definition path_config_at (schema_path : string) : pyval :=
  VObj 0 PathConfig
    {[ "root" := VPath repo; "dataset_schema_path" := VStr schema_path ]}.

Definition with_stdout (o : option write_failure) (w : World) : World := {|
  script_file := script_file w; git_rev_parse := git_rev_parse w; which := which w;
  copilot_run := copilot_run w; read_json := read_json w;
  dotenv_values := dotenv_values w; signal_name := signal_name w;
  stdout_write := fun _ => o |}.

(** Standard output is a full device. *)
Definition w_stdout_full : World :=
  with_stdout (Some (WriteRefused 28 "No space left on device")) w_healthy.

(** [git] prints bytes that are not text. *)
Definition w_git_garbled : World :=
  with_git (GitUndecodable 0
              "'utf-8' codec can't decode byte 0xff in position 0: invalid start byte")
           w_healthy.

Definition with_dotenv (bindings : gmap string string) (w : World) : World := {|
  script_file := script_file w; git_rev_parse := git_rev_parse w; which := which w;
  copilot_run := copilot_run w; read_json := read_json w;
  dotenv_values := bindings; signal_name := signal_name w;
  stdout_write := stdout_write w |}.

Ltac unfold_m :=
  unfold bind, ret, raise, lift, try_except, emit, get_environ, set_environ,
    read_config_global, write_config_global, fresh_oid,
    logger_info, logger_warning, logger_error, logger_exception in *.

(** Case analysis on a call of [run_copilot_agent] that found the
    executable; [found] and [run] are the lemmas that say what [found_agent]
    and the call amount to. *)
Ltac run_cases found run w repo_path s cmd Hf :=
  let Hw := fresh "Hw" in
  let Hne := fresh "Hne" in
  let rc := fresh "rc" in
  let out := fresh "out" in
  let err := fresh "err" in
  let sf := fresh "sf" in
  let Hrun := fresh "Hrun" in
  let Hrc := fresh "Hrc" in
  let f := fresh "f" in
  let Hrelay := fresh "Hrelay" in
  pose proof (found w cmd Hf) as [Hw Hne];
  rewrite (run w repo_path s cmd Hw Hne);
  destruct (copilot_run w (cmd_args cmd) (Pathlib.to_string repo_path) (environ s))
    as [[rc out err|sf]|] eqn:Hrun;
  [ destruct (rc =? 0)%Z eqn:Hrc;
    [ destruct (relay_failure w err) as [f|] eqn:Hrelay | ]
  | | ].

(** * Properties *)

(** ** The text and path operations on sample inputs *)

Example lower_mixed_case : PyText.lower "Total TOKENS: 42" = "total tokens: 42".
Proof. reflexivity. Qed.

Example contains_is_substring :
  PyText.contains "tokens" "total tokens: 42" = true
  ∧ PyText.contains "cost" "total tokens: 42" = false.
Proof. split; reflexivity. Qed.

Example strip_drops_final_newline :
  PyText.strip ("/home/runner/work/repo" ++ newline) = "/home/runner/work/repo".
Proof. reflexivity. Qed.

Example splitlines_crlf :
  PyText.splitlines ("a" ++ String "013" newline ++ "b" ++ newline) = ["a"; "b"].
Proof. reflexivity. Qed.

Example repr_of_argv :
  PyText.repr_list ["/usr/bin/copilot"; "--allow-all-tools"]
  = "['/usr/bin/copilot', '--allow-all-tools']".
Proof. reflexivity. Qed.

Example repr_bytes_escapes :
  PyText.repr_bytes "boom" = "b'boom'"
  ∧ PyText.repr_bytes ("a\b" ++ newline) = "b'a\\b\n'".
Proof. split; reflexivity. Qed.

Example three_levels_above_the_script :
  Pathlib.to_string (fallback_root w_healthy) = "/repo"
  ∧ Pathlib.to_string (git_cwd w_healthy) = "/repo/.github/scripts".
Proof. split; reflexivity. Qed.

(** ** The metrics extractor *)

Lemma add_events_nil (s : State) : add_events [] s = s.
Proof. by destruct s. Qed.

Lemma add_events_app (evs evs' : list event) (s : State) :
  add_events evs (add_events evs' s) = add_events (evs ++ evs') s.
Proof. unfold add_events; simpl. by rewrite app_assoc. Qed.

(** The loop of [parse_metrics] logs the matching lines and does nothing
    else; the dictionary stays empty, so the function returns [None]. *)
Lemma parse_metrics_run (stderr_lines : list string) (s : State) :
  parse_metrics stderr_lines s = (Ok VNone, add_events (metric_logs stderr_lines) s).
Proof.
  unfold parse_metrics. unfold bind at 1.
  assert (H : for_each stderr_lines
      (fun line =>
         if PyText.contains "tokens" (PyText.lower line)
            || PyText.contains "cost" (PyText.lower line)
         then logger_info ("Metric: " ++ line)
         else ret tt) s = (Ok tt, add_events (metric_logs stderr_lines) s)).
  { revert s. induction stderr_lines as [|line lines IH]; intros s.
    - simpl. unfold ret. by rewrite add_events_nil.
    - simpl. unfold bind at 1. unfold metric_logs. simpl. unfold mentions_metric at 1.
      destruct (PyText.contains "tokens" (PyText.lower line)
                || PyText.contains "cost" (PyText.lower line)).
      + unfold logger_info, emit at 1. rewrite IH.
        unfold add_events, metric_logs; simpl. by rewrite <- app_assoc.
      + unfold ret at 1. apply IH. }
  rewrite H. reflexivity.
Qed.

Lemma metric_logs_are_logs (lines : list string) :
  Forall (fun ev => ∃ line, In line lines ∧ mentions_metric line = true
                            ∧ ev = Log INFO ("Metric: " ++ line))
         (metric_logs lines).
Proof.
  unfold metric_logs. apply Forall_rev. apply List.Forall_forall.
  intros ev Hin. apply in_map_iff in Hin as (line & <- & Hin).
  apply filter_In in Hin as [Hin Hm]. by exists line.
Qed.

(** C5: [parse_metrics] returns [None] for every sequence of lines, also
    when lines mention tokens or cost: such a line only adds a log record
    (level INFO, the line prefixed by "Metric: "), and nothing ever enters
    the dictionary that is returned when non-empty. *)
Theorem parse_metrics_returns_None (stderr_lines : list string) (s : State) :
  parse_metrics stderr_lines s = (Ok VNone, add_events (metric_logs stderr_lines) s)
  ∧ Forall (fun ev => ∃ line, In line stderr_lines ∧ mentions_metric line = true
                              ∧ ev = Log INFO ("Metric: " ++ line))
           (metric_logs stderr_lines).
Proof. split; [apply parse_metrics_run | apply metric_logs_are_logs]. Qed.

Example parse_metrics_tokens_42 :
  parse_metrics ["starting"; "tokens: 42"; "Cost: 0.01 USD"] s_fresh
  = (Ok VNone,
     add_events [Log INFO "Metric: Cost: 0.01 USD"; Log INFO "Metric: tokens: 42"] s_fresh).
Proof. reflexivity. Qed.

(** ** The process runner *)

(** What [run_copilot_agent] does once the executable is found, by outcome
    of the child. *)
Lemma run_copilot_agent_found (w : World) (repo_path : Pathlib.Path) (s : State)
    (cmd : string) :
  which w "copilot" = Some cmd → cmd ≠ EmptyString →
  run_copilot_agent w repo_path s =
    match copilot_run w (cmd_args cmd) (Pathlib.to_string repo_path) (environ s) with
    | Expired =>
        (Ok (VNone, false),
         add_events (Log ERROR "Copilot CLI timed out after 300 seconds"
                       :: spawn_events cmd repo_path (environ s)) s)
    | Within (Exited rc _ err) =>
        if (rc =? 0)%Z then
          match relay_failure w err with
          | None =>
              (Ok (VNone, true),
               add_events (metric_logs (PyText.splitlines (decode_utf8_replace err))
                             ++ [Log INFO "Copilot CLI run complete"]
                             ++ relayed_stderr err
                             ++ spawn_events cmd repo_path (environ s)) s)
          | Some f =>
              (Raise (exn_of_write_failure f),
               add_events (Log ERROR ("Unexpected error running Copilot CLI: "
                                        ++ exn_str w (exn_of_write_failure f))
                             :: relayed_stderr err
                             ++ spawn_events cmd repo_path (environ s)) s)
          end
        else
          (Raise (AgentError (agent_failure_msg w cmd rc)),
           add_events (Log ERROR ("Copilot CLI execution failed with error "
                                    ++ PyText.repr_bytes err)
                         :: spawn_events cmd repo_path (environ s)) s)
    | Within (NotStarted f) =>
        (Raise (exn_of_start_failure f),
         add_events (Log ERROR ("Unexpected error running Copilot CLI: "
                                  ++ exn_str w (exn_of_start_failure f))
                       :: spawn_events cmd repo_path (environ s)) s)
    end.
Proof.
  intros Hw Hne.
  unfold run_copilot_agent, shutil_which. unfold bind at 1 2 3. unfold logger_info at 1 2.
  unfold emit at 1 2 3. simpl. unfold ret at 1. rewrite Hw.
  destruct cmd as [|c cmd']; [done|].
  unfold try_except, run_copilot. unfold bind at 1 2 3 4. unfold get_environ. simpl.
  unfold spawn_events, gh_token_events, prologue_events, relayed_stderr, agent_failure_msg,
    relay_failure, stdout_buffer_write.
  destruct (py_truthy (os_getenv (environ s) "GH_TOKEN")); simpl;
    unfold emit at 1; simpl;
    (destruct (copilot_run w _ _ _) as [[rc out err|sf]|]; simpl;
     [ destruct (rc =? 0)%Z eqn:Hrc; simpl;
       [ destruct err as [|c0 err]; simpl; unfold_m; simpl;
         [ reflexivity
         | destruct (stdout_write w (String c0 err)) as [f|]; simpl;
           [ destruct f; reflexivity
           | rewrite parse_metrics_run; unfold add_events; simpl;
             rewrite <- ?app_assoc; reflexivity ] ]
       | unfold_m; reflexivity ]
     | unfold_m; destruct sf as [[]|]; reflexivity
     | unfold_m; reflexivity ]).
Qed.

(** Whatever the child does, the metrics a call returns are [None]. *)
Lemma run_copilot_agent_metrics_None (w : World) (repo_path : Pathlib.Path)
    (s s' : State) (metrics : pyval) (success : bool) :
  run_copilot_agent w repo_path s = (Ok (metrics, success), s') → metrics = VNone.
Proof.
  destruct (which w "copilot") as [cmd|] eqn:Hw.
  - destruct (decide (cmd = EmptyString)) as [->|Hne].
    + unfold run_copilot_agent, shutil_which. unfold_m. simpl. rewrite Hw.
      discriminate.
    + rewrite (run_copilot_agent_found w repo_path s cmd Hw Hne).
      destruct (copilot_run w _ _ _) as [[rc out err|sf]|].
      * destruct (rc =? 0)%Z; [|discriminate].
        destruct (relay_failure w err); [discriminate|]. by intros [= <- _ _].
      * discriminate.
      * by intros [= <- _ _].
  - unfold run_copilot_agent, shutil_which. unfold_m. simpl. rewrite Hw.
    discriminate.
Qed.

Example healthy_run_reports_no_metrics :
  run_copilot_agent w_healthy repo s_fresh
  = (Ok (VNone, true),
     add_events ([Log INFO "Metric: tokens: 42"; Log INFO "Copilot CLI run complete";
                  StdoutWrite ("tokens: 42" ++ newline)]
                   ++ spawn_events "/usr/bin/copilot" repo ∅) s_fresh).
Proof. reflexivity. Qed.

(** C6: when [copilot] is not on the search path, [run_copilot_agent] raises
    [AgentError] at once: the events of the call are two log records and the
    one [shutil.which] lookup, no process is spawned and the lookup is not
    repeated. *)
Theorem agent_missing_raises_before_spawn (w : World) (repo_path : Pathlib.Path)
    (s : State) :
  which w "copilot" = None →
  run_copilot_agent w repo_path s
    = (Raise (AgentError agent_missing_msg), add_events (prologue_events repo_path) s)
  ∧ List.filter is_spawn (prologue_events repo_path) = []
  ∧ List.filter is_lookup (prologue_events repo_path) = [WhichLookup "copilot"].
Proof.
  intros Hw. split; [|split; reflexivity].
  unfold run_copilot_agent, shutil_which. unfold_m. simpl. rewrite Hw. reflexivity.
Qed.

Lemma agent_missing_witness :
  run_copilot_agent w_agent_absent repo s_fresh
    = (Raise (AgentError agent_missing_msg), add_events (prologue_events repo) s_fresh)
  ∧ List.filter is_spawn (prologue_events repo) = []
  ∧ List.filter is_lookup (prologue_events repo) = [WhichLookup "copilot"].
Proof.
  apply (agent_missing_raises_before_spawn w_agent_absent repo s_fresh).
  reflexivity.
Defined.

(** C4: when the child exceeds the time limit, [run_copilot_agent] returns
    [(None, False)] and raises nothing; it only logs the timeout.  The
    outcome is apart from a non-zero exit, which raises [AgentError], and
    [(None, False)] is returned for no outcome but the timeout. *)
Theorem timeout_is_reported_not_raised (w : World) (repo_path : Pathlib.Path)
    (s : State) (cmd : string) :
  which w "copilot" = Some cmd → cmd ≠ EmptyString →
  (copilot_run w (cmd_args cmd) (Pathlib.to_string repo_path) (environ s) = Expired →
   run_copilot_agent w repo_path s
     = (Ok (VNone, false),
        add_events (Log ERROR "Copilot CLI timed out after 300 seconds"
                      :: spawn_events cmd repo_path (environ s)) s))
  ∧ (∀ rc out err,
       copilot_run w (cmd_args cmd) (Pathlib.to_string repo_path) (environ s)
         = Within (Exited rc out err) →
       rc ≠ 0%Z →
       ∃ msg, fst (run_copilot_agent w repo_path s) = Raise (AgentError msg))
  ∧ (fst (run_copilot_agent w repo_path s) = Ok (VNone, false) →
     copilot_run w (cmd_args cmd) (Pathlib.to_string repo_path) (environ s) = Expired).
Proof.
  intros Hw Hne. rewrite (run_copilot_agent_found w repo_path s cmd Hw Hne).
  split; [|split].
  - intros ->. reflexivity.
  - intros rc out err -> Hrc. apply Z.eqb_neq in Hrc. rewrite Hrc. eauto.
  - destruct (copilot_run w _ _ _) as [[rc out err|sf]|]; [| |done].
    + destruct (rc =? 0)%Z; [destruct (relay_failure w err)|]; discriminate.
    + discriminate.
Qed.

Lemma timeout_witness :
  run_copilot_agent w_agent_hangs repo s_fresh
    = (Ok (VNone, false),
       add_events (Log ERROR "Copilot CLI timed out after 300 seconds"
                     :: spawn_events "/usr/bin/copilot" repo ∅) s_fresh).
Proof.
  apply (timeout_is_reported_not_raised w_agent_hangs repo s_fresh "/usr/bin/copilot").
  - reflexivity.
  - discriminate.
  - reflexivity.
Defined.

(** C3, as the claim states it, fails: the child exits with status 1 after
    writing [boom] to its standard error, and the message of the
    [AgentError] does not contain [boom]. *)
Lemma agent_error_message_omits_stderr :
  copilot_run w_agent_fails (cmd_args "/usr/bin/copilot") "/repo" ∅
    = Within (Exited 1 EmptyString "boom")
  ∧ ∃ msg s',
      run_copilot_agent w_agent_fails repo s_fresh = (Raise (AgentError msg), s')
      ∧ PyText.contains "boom" msg = false.
Proof.
  split; [reflexivity|].
  exists (agent_failure_msg w_agent_fails "/usr/bin/copilot" 1),
         (snd (run_copilot_agent w_agent_fails repo s_fresh)).
  split; vm_compute; reflexivity.
Qed.

(** C3, amended: when the child exits with a non-zero status,
    [run_copilot_agent] raises [AgentError]; its message is
    "Copilot CLI execution failed: " followed by the text of the
    [CalledProcessError], which names the command and the status and is the
    same whatever the child wrote.  The captured standard error goes to the
    error log. *)
Theorem nonzero_exit_raises_AgentError (w : World) (repo_path : Pathlib.Path)
    (s : State) (cmd : string) (rc : Z) (out err : string) :
  which w "copilot" = Some cmd → cmd ≠ EmptyString →
  copilot_run w (cmd_args cmd) (Pathlib.to_string repo_path) (environ s)
    = Within (Exited rc out err) →
  rc ≠ 0%Z →
  run_copilot_agent w repo_path s
    = (Raise (AgentError (agent_failure_msg w cmd rc)),
       add_events (Log ERROR ("Copilot CLI execution failed with error "
                                ++ PyText.repr_bytes err)
                     :: spawn_events cmd repo_path (environ s)) s).
Proof.
  intros Hw Hne Hrun Hrc.
  rewrite (run_copilot_agent_found w repo_path s cmd Hw Hne), Hrun.
  apply Z.eqb_neq in Hrc. by rewrite Hrc.
Qed.

Lemma nonzero_exit_witness :
  run_copilot_agent w_agent_fails repo s_fresh
    = (Raise (AgentError (agent_failure_msg w_agent_fails "/usr/bin/copilot" 1)),
       add_events (Log ERROR "Copilot CLI execution failed with error b'boom'"
                     :: spawn_events "/usr/bin/copilot" repo ∅) s_fresh).
Proof.
  apply (nonzero_exit_raises_AgentError w_agent_fails repo s_fresh
           "/usr/bin/copilot" 1 EmptyString "boom").
  - reflexivity.
  - discriminate.
  - reflexivity.
  - discriminate.
Defined.

Example agent_failure_msg_status_1 :
  agent_failure_msg w_healthy "copilot" 1
  = "Copilot CLI execution failed: Command '['copilot', '--allow-all-tools', '--allow-all-paths', '--disable-builtin-mcps', '--model=claude-haiku-4.5', '--log-level=debug', '--prompt= What is the meaning and structure of this repository? After you reply, use gh to make a hello world on the last PR', '--no-custom-instructions']' returned non-zero exit status 1.".
Proof. reflexivity. Qed.

Example agent_failure_msg_killed :
  PyText.contains "died with <Signals.SIGKILL: 9>." (agent_failure_msg w_healthy "copilot" (-9))
  = true.
Proof. reflexivity. Qed.

(** ** The repository root *)

Lemma get_git_root_run (w : World) (s : State) :
  _get_git_root w s =
    (match git_rev_parse w (Pathlib.to_string (git_cwd w)) with
     | GitExited rc out _ =>
         Ok (if (rc =? 0)%Z then Pathlib.of_string (PyText.strip out)
             else fallback_root w)
     | GitUndecodable _ reason => Raise (UnicodeDecodeError reason)
     | GitNotStarted f => Raise (exn_of_start_failure f)
     end,
     add_events [git_spawned w] s).
Proof.
  unfold _get_git_root, run_git, git_spawned, git_cwd, fallback_root.
  unfold try_except, bind, emit. simpl.
  destruct (git_rev_parse w _) as [rc out err|rc reason|f]; simpl.
  - destruct (rc =? 0)%Z; reflexivity.
  - reflexivity.
  - destruct f as [[]|]; reflexivity.
Qed.

(** C2, as the claim states it, fails: where [git] is not installed,
    [_get_git_root] raises [FileNotFoundError] instead of returning the
    fallback path. *)
Lemma git_absent_raises :
  git_rev_parse w_git_absent (Pathlib.to_string (git_cwd w_git_absent))
    = GitNotStarted (Refused NoSuchFile "git")
  ∧ fst (_get_git_root w_git_absent s_fresh) = Raise (FileNotFoundError "git").
Proof. split; reflexivity. Qed.

(** C2, amended: [_get_git_root] returns a path whenever [git] was started
    and its output is text in the locale's encoding: the script's directory
    ascended three levels when [git] exits with a non-zero status, and
    [Path(stdout.strip())] when it exits with status 0 (stated for ASCII
    output, on which [strip] is exact).  [CalledProcessError] is the only
    exception the function catches: when [git] cannot be started (the tool
    is absent) the error of the operating system reaches the caller, and
    when the output of [git] does not decode the [UnicodeDecodeError]
    does. *)
Theorem get_git_root_outcomes (w : World) (s : State) :
  match git_rev_parse w (Pathlib.to_string (git_cwd w)) with
  | GitExited rc out _ =>
      (∃ root, fst (_get_git_root w s) = Ok root)
      ∧ (rc ≠ 0%Z → fst (_get_git_root w s) = Ok (fallback_root w))
      ∧ (rc = 0%Z → is_ascii out = true →
         fst (_get_git_root w s) = Ok (Pathlib.of_string (PyText.strip out)))
  | GitUndecodable _ reason =>
      fst (_get_git_root w s) = Raise (UnicodeDecodeError reason)
  | GitNotStarted f =>
      fst (_get_git_root w s) = Raise (exn_of_start_failure f)
  end.
Proof.
  rewrite get_git_root_run.
  destruct (git_rev_parse w _) as [rc out err|rc reason|f]; simpl;
    [|reflexivity..].
  split; [eauto|]. split.
  - intros Hrc. apply Z.eqb_neq in Hrc. by rewrite Hrc.
  - by intros -> _.
Qed.

Example git_root_from_git :
  fst (_get_git_root w_healthy s_fresh) = Ok (Pathlib.of_string "/repo").
Proof. reflexivity. Qed.

Example git_root_outside_a_checkout :
  fst (_get_git_root (with_git (GitExited 128 EmptyString "fatal: not a git repository")
                        w_healthy) s_fresh)
  = Ok (Pathlib.of_string "/repo").
Proof. reflexivity. Qed.

Example git_root_undecodable_output :
  fst (_get_git_root w_git_garbled s_fresh)
  = Raise (UnicodeDecodeError
             "'utf-8' codec can't decode byte 0xff in position 0: invalid start byte").
Proof. reflexivity. Qed.

(** ** Configuration resolution *)

(** [Config.load] never returns: the first class call it reaches,
    [cls(root=root)] in [PathConfig.from_root], passes a keyword argument
    to a class that accepts none. *)
Lemma Config_load_run (w : World) (s : State) :
  Config_load w s = (Raise (load_failure w), add_events [git_spawned w] s).
Proof.
  unfold Config_load, load_failure. unfold bind at 1. rewrite get_git_root_run.
  destruct (git_rev_parse w _) as [rc out err|rc reason|f]; reflexivity.
Qed.

Corollary Config_load_never_returns (w : World) (s : State) (c : pyval) (s' : State) :
  Config_load w s ≠ (Ok c, s').
Proof. rewrite Config_load_run. discriminate. Qed.

Lemma get_config_unset (w : World) (s : State) :
  _config s = VNone →
  get_config w s
    = (Raise (load_failure w), add_events [git_spawned w] (after_dotenv w s)).
Proof.
  intros H. unfold get_config, load_dotenv.
  unfold bind at 1. unfold read_config_global at 1. rewrite H.
  cbn [is_None]. unfold bind, emit, get_environ, set_environ.
  rewrite Config_load_run. reflexivity.
Qed.

Lemma get_config_cached (w : World) (s : State) :
  _config s ≠ VNone → get_config w s = (Ok (_config s), s).
Proof.
  intros H. unfold get_config. unfold_m.
  destruct (_config s) eqn:E; [done|..]; simpl; by rewrite E.
Qed.







Example malformed_schema_raises_JSONDecodeError :
  fst (Config_load_from
         (with_schema (Malformed "Expecting value: line 1 column 1 (char 0)") w_healthy)
         (path_config_at "/repo/dataset/schema.json") s_fresh)
  = Raise (JSONDecodeError "Expecting value: line 1 column 1 (char 0)").
Proof. reflexivity. Qed.

(** From a process whose singleton is unset, no call of [get_config]
    returns, whatever the surroundings. *)
Lemma get_config_never_returns_when_unset (w : World) (s : State) (c : pyval) (s' : State) :
  _config s = VNone → get_config w s ≠ (Ok c, s').
Proof. intros H. rewrite (get_config_unset w s H). discriminate. Qed.

(** C9: the code does not do what the claim says.  In a checkout with a
    well-formed schema, the first call of [get_config] raises [TypeError]
    (the class call of [PathConfig.from_root]) and stores nothing; the next
    call finds the singleton unset, runs [load_dotenv] and [git] again and
    raises again.  Nor is this host special: whatever the surroundings, a
    call that finds the singleton unset does not return and leaves it
    unset, so no call ever returns a cached object. *)
Theorem healthy_resolution_never_caches :
  fst (get_config w_healthy s_fresh)
    = Raise (TypeError "PathConfig() takes no arguments")
  ∧ _config (snd (get_config w_healthy s_fresh)) = VNone
  ∧ fst (get_config w_healthy (snd (get_config w_healthy s_fresh)))
    = Raise (TypeError "PathConfig() takes no arguments")
  ∧ trace (snd (get_config w_healthy (snd (get_config w_healthy s_fresh))))
    = [git_spawned w_healthy; DotenvLoaded; git_spawned w_healthy; DotenvLoaded]
  ∧ ∀ (w : World) (s : State),
      _config s = VNone →
      (∀ c s', get_config w s ≠ (Ok c, s'))
      ∧ _config (snd (get_config w s)) = VNone.
Proof.
  do 4 (split; [reflexivity|]).
  intros w s Hnone. split.
  - intros c s'. by apply get_config_never_returns_when_unset.
  - by rewrite (get_config_unset w s Hnone).
Qed.
(** ** The schema lookup *)

(** C8, as the claim states it, fails: a schema document that parses and
    has no [properties.instance_id.pattern] because its [properties] is a
    number makes the lookup raise [AttributeError], and resolution does not
    succeed. *)
Lemma odd_schema_lookup_raises :
  read_json w_schema_odd "/repo/dataset/schema.json" = Json (VDict schema_odd)
  ∧ schema_instance_pattern (VDict schema_odd)
      = Raise (AttributeError "'int' object has no attribute 'get'")
  ∧ ¬ ∃ c s', get_config w_schema_odd s_fresh = (Ok c, s').
Proof.
  split; [reflexivity|]. split; [reflexivity|].
  intros (c & s' & H). vm_compute in H. discriminate H.
Qed.

(** C8, amended: for every schema document that parses to a dictionary and
    lacks [properties.instance_id.pattern] through a missing key, the levels
    that are present being dictionaries, the lookup of line 146 yields
    [None] and raises nothing. *)
Theorem missing_pattern_is_None (d : gmap string pyval) :
  lacks_pattern d → schema_instance_pattern (VDict d) = Ok VNone.
Proof.
  intros [Hp | p Hp Hi | p i Hp Hi Hpat]; unfold schema_instance_pattern, py_get.
  - rewrite Hp. simpl. by rewrite lookup_empty.
  - rewrite Hp. simpl. rewrite Hi. simpl. by rewrite lookup_empty.
  - rewrite Hp. simpl. rewrite Hi. simpl. by rewrite Hpat.
Qed.

Lemma missing_pattern_witness :
  schema_instance_pattern
    (VDict {[ "properties" := VDict {[ "instance_id" := VDict {[ "type" := VStr "string" ]} ]} ]})
  = Ok VNone.
Proof.
  apply missing_pattern_is_None.
  apply (no_pattern _ {[ "instance_id" := VDict {[ "type" := VStr "string" ]} ]}
                      {[ "type" := VStr "string" ]});
    reflexivity.
Defined.

Example empty_schema_has_no_pattern : schema_instance_pattern (VDict ∅) = Ok VNone.
Proof. reflexivity. Qed.

Example present_pattern_is_returned :
  schema_instance_pattern
    (VDict {[ "properties" := VDict {[ "instance_id" := VDict {[ "pattern" := VStr "^[a-z]+$" ]} ]} ]})
  = Ok (VStr "^[a-z]+$").
Proof. reflexivity. Qed.

Example null_properties_raise :
  schema_instance_pattern (VDict {[ "properties" := VNone ]})
  = Raise (AttributeError "'NoneType' object has no attribute 'get'")
  ∧ schema_instance_pattern (VList [])
  = Raise (AttributeError "'list' object has no attribute 'get'").
Proof. split; reflexivity. Qed.

(** ** The environment snapshot *)

(** The two flags among the arguments [from_environment] builds compare
    with [==] against a literal: true exactly for "true" and for "1". *)
Lemma from_environment_flag_arguments (env : gmap string string) :
  kwarg "github_actions" (from_environment_kwargs env)
    = Some (VBool (bool_decide (env !! "GITHUB_ACTIONS" = Some "true")))
  ∧ kwarg "runner_debug" (from_environment_kwargs env)
    = Some (VBool (bool_decide (env !! "RUNNER_DEBUG" = Some "1"))).
Proof.
  unfold from_environment_kwargs, kwarg, os_getenv, py_eq_str; simpl. split.
  - destruct (env !! "GITHUB_ACTIONS") as [v|] eqn:E; simpl; [|done].
    destruct (String.eqb_spec v "true") as [->|Hne].
    + by rewrite bool_decide_eq_true_2.
    + rewrite bool_decide_eq_false_2; [done|]. congruence.
  - destruct (env !! "RUNNER_DEBUG") as [v|] eqn:E; simpl; [|done].
    destruct (String.eqb_spec v "1") as [->|Hne].
    + by rewrite bool_decide_eq_true_2.
    + rewrite bool_decide_eq_false_2; [done|]. congruence.
Qed.

Example ci_flags_other_spellings :
  kwarg "github_actions" (from_environment_kwargs {[ "GITHUB_ACTIONS" := "true" ]})
    = Some (VBool true)
  ∧ kwarg "github_actions" (from_environment_kwargs {[ "GITHUB_ACTIONS" := "True" ]})
    = Some (VBool false)
  ∧ kwarg "github_actions" (from_environment_kwargs {[ "GITHUB_ACTIONS" := "TRUE" ]})
    = Some (VBool false)
  ∧ kwarg "github_actions" (from_environment_kwargs {[ "GITHUB_ACTIONS" := "yes" ]})
    = Some (VBool false)
  ∧ kwarg "github_actions" (from_environment_kwargs ∅) = Some (VBool false)
  ∧ kwarg "runner_debug" (from_environment_kwargs {[ "RUNNER_DEBUG" := "1" ]})
    = Some (VBool true)
  ∧ kwarg "runner_debug" (from_environment_kwargs {[ "RUNNER_DEBUG" := "true" ]})
    = Some (VBool false)
  ∧ kwarg "runner_debug" (from_environment_kwargs ∅) = Some (VBool false).
Proof. repeat split; reflexivity. Qed.

(** C10: the code does not do what the claim says.  The two flags are
    computed as the claim has them, by [==] against "true" and "1", but the
    call [cls(...)] that should build the snapshot is refused with
    [TypeError], [EnvironmentConfig] having no constructor that takes
    arguments: for every environment [from_environment] raises and no
    snapshot, hence no flag, comes to exist. *)
Theorem from_environment_builds_no_snapshot (s : State) :
  EnvironmentConfig_from_environment s
    = (Raise (TypeError "EnvironmentConfig() takes no arguments"), s)
  ∧ kwarg "github_actions" (from_environment_kwargs (environ s))
    = Some (VBool (bool_decide (environ s !! "GITHUB_ACTIONS" = Some "true")))
  ∧ kwarg "runner_debug" (from_environment_kwargs (environ s))
    = Some (VBool (bool_decide (environ s !! "RUNNER_DEBUG" = Some "1"))).
Proof.
  split; [|apply from_environment_flag_arguments].
  unfold EnvironmentConfig_from_environment, get_environ, bind. reflexivity.
Qed.

Example from_environment_in_github_actions :
  fst (EnvironmentConfig_from_environment
         {| _config := VNone;
            environ := {[ "GITHUB_ACTIONS" := "true"; "RUNNER_DEBUG" := "1" ]};
            next_oid := 0; trace := [] |})
  = Raise (TypeError "EnvironmentConfig() takes no arguments").
Proof. reflexivity. Qed.

(** ** The credential accessor *)

(** C7: on a configuration whose snapshot holds the value of [ADO_TOKEN],
    [resolve_ado_token] raises [ConfigurationError] if and only if the
    variable was unset or empty, and returns the value unchanged whenever it
    was set to a non-empty string. *)
Theorem resolve_ado_token_iff_missing (env : gmap string string) (self : pyval)
    (oid eoid : nat) (attrs eattrs : gmap string pyval) (s : State) :
  self = VObj oid Config attrs →
  attrs !! "env" = Some (VObj eoid EnvironmentConfig eattrs) →
  eattrs !! "ado_token" = Some (os_getenv env "ADO_TOKEN") →
  ((∃ msg, fst (resolve_ado_token self s) = Raise (ConfigurationError msg))
     ↔ (env !! "ADO_TOKEN" = None ∨ env !! "ADO_TOKEN" = Some EmptyString))
  ∧ (∀ token, env !! "ADO_TOKEN" = Some token → token ≠ EmptyString →
       resolve_ado_token self s = (Ok (VStr token), s)).
Proof.
  intros -> Henv Htok. unfold resolve_ado_token, py_getattr.
  unfold bind, ret, raise. rewrite Henv, Htok. unfold os_getenv.
  destruct (env !! "ADO_TOKEN") as [t|]; simpl.
  - destruct t as [|c t]; simpl.
    + split; [|intros token [= <-] Hne; done]. split; eauto.
    + split.
      * split; [intros [msg H]; discriminate H | intros [H|H]; discriminate H].
      * intros token [= <-] _. reflexivity.
  - split; [|intros token H; discriminate H]. split; eauto.
Qed.

Lemma resolve_ado_token_witness :
  resolve_ado_token (config_of {[ "ADO_TOKEN" := "s3cret" ]}) s_fresh
  = (Ok (VStr "s3cret"), s_fresh).
Proof.
  destruct (resolve_ado_token_iff_missing {[ "ADO_TOKEN" := "s3cret" ]}
              (config_of {[ "ADO_TOKEN" := "s3cret" ]}) 0 1
              {[ "env" := snapshot_of {[ "ADO_TOKEN" := "s3cret" ]} ]}
              {[ "ado_token" := VStr "s3cret" ]} s_fresh) as [_ Hreturns].
  - reflexivity.
  - reflexivity.
  - reflexivity.
  - apply Hreturns; [reflexivity | discriminate].
Defined.

Example resolve_ado_token_unset_or_empty :
  fst (resolve_ado_token (config_of ∅) s_fresh)
    = Raise (ConfigurationError "ADO_TOKEN environment variable is required")
  ∧ fst (resolve_ado_token (config_of {[ "ADO_TOKEN" := EmptyString ]}) s_fresh)
    = Raise (ConfigurationError "ADO_TOKEN environment variable is required").
Proof. split; reflexivity. Qed.


(** * Further properties *)

(** ** Events of a call *)

Lemma new_events_add_events (evs : list event) (s : State) :
  new_events s (add_events evs s) = evs.
Proof.
  unfold new_events, add_events; simpl.
  rewrite length_app, Nat.add_sub. apply take_app_length.
Qed.

Lemma filter_metric_logs (f : event → bool) (lines : list string) :
  (∀ line, f (Log INFO ("Metric: " ++ line)) = false) →
  List.filter f (metric_logs lines) = [].
Proof.
  intros Hf. unfold metric_logs.
  induction (List.filter mentions_metric lines) as [|line l IH]; [done|].
  simpl. rewrite List.filter_app, IH. simpl. by rewrite Hf.
Qed.

Lemma found_agent_Some (w : World) (cmd : string) :
  found_agent w = Some cmd → which w "copilot" = Some cmd ∧ cmd ≠ EmptyString.
Proof.
  unfold found_agent. destruct (which w "copilot") as [[|c t]|]; [done| |done].
  intros [= <-]. done.
Qed.

Lemma run_copilot_agent_not_found (w : World) (repo_path : Pathlib.Path) (s : State) :
  found_agent w = None →
  run_copilot_agent w repo_path s
    = (Raise (AgentError agent_missing_msg), add_events (prologue_events repo_path) s).
Proof.
  unfold found_agent. intros H.
  unfold run_copilot_agent, shutil_which. unfold_m. simpl.
  destruct (which w "copilot") as [[|c t]|]; [reflexivity|discriminate H|reflexivity].
Qed.

Lemma relay_failure_Some (w : World) (err : string) (f : write_failure) :
  relay_failure w err = Some f →
  relayed_stderr err = [StdoutWrite err] ∧ err ≠ EmptyString ∧ stdout_write w err = Some f.
Proof.
  unfold relay_failure, relayed_stderr. destruct err as [|c err]; simpl; [done|].
  intros H. done.
Qed.

Lemma write_failure_not_AgentError (f : write_failure) (msg : string) :
  exn_of_write_failure f ≠ AgentError msg.
Proof. destruct f; discriminate. Qed.

Lemma start_failure_not_AgentError (f : start_failure) (msg : string) :
  exn_of_start_failure f ≠ AgentError msg.
Proof. destruct f as [[]|]; discriminate. Qed.

(** The events of a call of [run_copilot_agent], latest first. *)
Lemma run_copilot_agent_events (w : World) (repo_path : Pathlib.Path) (s : State) :
  snd (run_copilot_agent w repo_path s)
    = add_events (new_events s (snd (run_copilot_agent w repo_path s))) s.
Proof.
  destruct (found_agent w) as [cmd|] eqn:Hf.
  - run_cases found_agent_Some run_copilot_agent_found w repo_path s cmd Hf; simpl; by rewrite new_events_add_events.
  - rewrite (run_copilot_agent_not_found w repo_path s Hf). simpl.
    by rewrite new_events_add_events.
Qed.

Lemma filter_spawn_events (f : event → bool) (cmd : string) (repo_path : Pathlib.Path)
    (env : gmap string string) :
  f gh_token_warning = false →
  (∀ ev, In ev (prologue_events repo_path) → f ev = false) →
  List.filter f (spawn_events cmd repo_path env)
  = List.filter f [Spawn (cmd_args cmd) (Pathlib.to_string repo_path)].
Proof.
  intros Hwarn Hpro. unfold spawn_events. rewrite !List.filter_app.
  assert (List.filter f (gh_token_events env) = []) as ->.
  { unfold gh_token_events. destruct (negb _); [|done]. simpl.
    unfold gh_token_warning in Hwarn. by rewrite Hwarn. }
  assert (List.filter f (prologue_events repo_path) = []) as ->.
  { induction (prologue_events repo_path) as [|ev l IH]; [done|]. simpl.
    rewrite (Hpro ev) by (by left). apply IH. intros ev' Hin. apply Hpro. by right. }
  by rewrite app_nil_r.
Qed.

(** ** More on the process runner *)

#[local] Arguments spawn_events : simpl never.
#[local] Arguments relayed_stderr : simpl never.
#[local] Opaque spawn_events.

(** X1: a call of [run_copilot_agent] changes the process in one way only:
    it appends events.  The singleton, [os.environ] and the object counter
    are as before, whatever the outcome. *)
Theorem run_copilot_agent_only_appends (w : World) (repo_path : Pathlib.Path)
    (s : State) :
  _config (snd (run_copilot_agent w repo_path s)) = _config s
  ∧ environ (snd (run_copilot_agent w repo_path s)) = environ s
  ∧ next_oid (snd (run_copilot_agent w repo_path s)) = next_oid s
  ∧ trace (snd (run_copilot_agent w repo_path s))
    = (new_events s (snd (run_copilot_agent w repo_path s)) ++ trace s)%list.
Proof. rewrite run_copilot_agent_events at 1 2 3 4. done. Qed.

(** X2: a call spawns one process when the executable is found, with the
    fixed argument vector headed by the path found and with the repository
    path as working directory, and spawns none when it is not found; a
    second process is never started. *)
Theorem one_spawn_iff_agent_found (w : World) (repo_path : Pathlib.Path) (s : State) :
  List.filter is_spawn (new_events s (snd (run_copilot_agent w repo_path s)))
  = match found_agent w with
    | Some cmd => [Spawn (cmd_args cmd) (Pathlib.to_string repo_path)]
    | None => []
    end.
Proof.
  destruct (found_agent w) as [cmd|] eqn:Hf.
  - assert (Hpre : List.filter is_spawn (spawn_events cmd repo_path (environ s))
                   = [Spawn (cmd_args cmd) (Pathlib.to_string repo_path)]).
    { rewrite filter_spawn_events; [done..|].
      intros ev [<-|[<-|[<-|[]]]]; done. }
    assert (Hrel : ∀ err, List.filter is_spawn (relayed_stderr err) = []).
    { intros err. unfold relayed_stderr. by destruct (py_truthy (VStr err)). }
    run_cases found_agent_Some run_copilot_agent_found w repo_path s cmd Hf; simpl; rewrite new_events_add_events;
      rewrite ?List.filter_app; simpl; rewrite ?List.filter_app, ?Hrel, ?Hpre; try done.
    by rewrite filter_metric_logs.
  - rewrite (run_copilot_agent_not_found w repo_path s Hf). simpl.
    by rewrite new_events_add_events.
Qed.

(** X3: with the executable found, [run_copilot_agent] returns with the
    success flag [True] exactly when the child exited with status 0 and the
    relay of its standard error to standard output did not fail (nothing to
    write, or the write and flush went through); the metrics returned with
    it are [None]. *)
Theorem success_iff_exit_zero_and_relayed (w : World) (repo_path : Pathlib.Path)
    (s : State) (cmd : string) :
  found_agent w = Some cmd →
  ((∃ metrics, fst (run_copilot_agent w repo_path s) = Ok (metrics, true))
   ↔ ∃ out err,
       copilot_run w (cmd_args cmd) (Pathlib.to_string repo_path) (environ s)
         = Within (Exited 0 out err)
       ∧ relay_failure w err = None)
  ∧ (∀ metrics, fst (run_copilot_agent w repo_path s) = Ok (metrics, true) →
       metrics = VNone).
Proof.
  intros Hf. run_cases found_agent_Some run_copilot_agent_found w repo_path s cmd Hf; simpl.
  - apply Z.eqb_eq in Hrc as ->. split; [|discriminate].
    split; [intros [m H]; discriminate H|].
    intros (o & e & [= <- <-] & H). rewrite H in Hrelay. discriminate.
  - apply Z.eqb_eq in Hrc as ->. split; [|by intros m [= <-]].
    split; [|eauto]. intros _. by exists out, err.
  - apply Z.eqb_neq in Hrc. split; [|discriminate].
    split; [intros [m H]; discriminate H|]. intros (o & e & [= -> _ _] & _). done.
  - split; [|discriminate].
    split; [intros [m H]; discriminate H | intros (o & e & H & _); discriminate H].
  - split; [|discriminate].
    split; [intros [m H]; discriminate H | intros (o & e & H & _); discriminate H].
Qed.

Lemma success_witness :
  (∃ metrics, fst (run_copilot_agent w_healthy repo s_fresh) = Ok (metrics, true))
  ↔ ∃ out err,
      copilot_run w_healthy (cmd_args "/usr/bin/copilot") (Pathlib.to_string repo) ∅
        = Within (Exited 0 out err)
      ∧ relay_failure w_healthy err = None.
Proof.
  apply (success_iff_exit_zero_and_relayed w_healthy repo s_fresh "/usr/bin/copilot").
  reflexivity.
Defined.

Example full_stdout_breaks_a_successful_run :
  fst (run_copilot_agent w_stdout_full repo s_fresh)
  = Raise (OSError 28 "No space left on device" None).
Proof. reflexivity. Qed.

(** X4: the standard error of the child is copied to standard output in one
    case only, a child that exited with status 0 and wrote something; after
    a failure, a timeout or an empty standard error nothing is written. *)
Theorem stderr_relayed_on_success_only (w : World) (repo_path : Pathlib.Path)
    (s : State) :
  List.filter is_stdout_write (new_events s (snd (run_copilot_agent w repo_path s)))
  = match found_agent w with
    | Some cmd =>
        match copilot_run w (cmd_args cmd) (Pathlib.to_string repo_path) (environ s) with
        | Within (Exited rc _ err) =>
            if (rc =? 0)%Z && negb (String.eqb err EmptyString)
            then [StdoutWrite err] else []
        | _ => []
        end
    | None => []
    end.
Proof.
  destruct (found_agent w) as [cmd|] eqn:Hf.
  - assert (Hpre : List.filter is_stdout_write (spawn_events cmd repo_path (environ s))
                   = []).
    { rewrite filter_spawn_events; [done..|].
      intros ev [<-|[<-|[<-|[]]]]; done. }
    run_cases found_agent_Some run_copilot_agent_found w repo_path s cmd Hf; simpl; rewrite new_events_add_events;
      rewrite ?List.filter_app; simpl; rewrite ?List.filter_app, ?Hpre; try done.
    + apply relay_failure_Some in Hrelay as (-> & Hne' & _). simpl.
      by destruct err.
    + rewrite filter_metric_logs by done.
      unfold relayed_stderr. by destruct err.
  - rewrite (run_copilot_agent_not_found w repo_path s Hf). simpl.
    by rewrite new_events_add_events.
Qed.

(** X5: when the child cannot be started, the error of the operating system
    that [subprocess.run] raised leaves [run_copilot_agent] as it is, not
    wrapped in an [AgentError], after one record in the error log that
    carries its text.  The error names the file that was refused (the
    executable, or the working directory), or no file when the system had
    no resources for a new process. *)
Theorem spawn_failure_propagates_unchanged (w : World) (repo_path : Pathlib.Path)
    (s : State) (cmd : string) (f : start_failure) :
  found_agent w = Some cmd →
  copilot_run w (cmd_args cmd) (Pathlib.to_string repo_path) (environ s)
    = Within (NotStarted f) →
  run_copilot_agent w repo_path s
    = (Raise (exn_of_start_failure f),
       add_events (Log ERROR ("Unexpected error running Copilot CLI: "
                                ++ exn_str w (exn_of_start_failure f))
                     :: spawn_events cmd repo_path (environ s)) s)
  ∧ ∀ msg, exn_of_start_failure f ≠ AgentError msg.
Proof.
  intros Hf Hrun. apply found_agent_Some in Hf as [Hw Hne].
  rewrite (run_copilot_agent_found w repo_path s cmd Hw Hne), Hrun.
  split; [reflexivity|]. intros msg. apply start_failure_not_AgentError.
Qed.

Lemma spawn_failure_witness :
  run_copilot_agent
    (with_agent
       (Within (NotStarted (Refused (OtherFailure 8 "Exec format error") "/usr/bin/copilot")))
       w_healthy) repo s_fresh
  = (Raise (OSError 8 "Exec format error" (Some "/usr/bin/copilot")),
     add_events
       (Log ERROR "Unexpected error running Copilot CLI: [Errno 8] Exec format error: '/usr/bin/copilot'"
          :: spawn_events "/usr/bin/copilot" repo ∅) s_fresh).
Proof.
  apply (spawn_failure_propagates_unchanged
           (with_agent
              (Within (NotStarted
                         (Refused (OtherFailure 8 "Exec format error") "/usr/bin/copilot")))
              w_healthy) repo s_fresh "/usr/bin/copilot"
           (Refused (OtherFailure 8 "Exec format error") "/usr/bin/copilot"));
    reflexivity.
Defined.

Example missing_working_directory_is_named :
  fst (run_copilot_agent
         (with_agent (Within (NotStarted (Refused NoSuchFile "/gone"))) w_healthy)
         (Pathlib.of_string "/gone") s_fresh)
  = Raise (FileNotFoundError "/gone").
Proof. reflexivity. Qed.

Example exhausted_system_names_no_file :
  fst (run_copilot_agent
         (with_agent (Within (NotStarted (NoResources 24 "Too many open files"))) w_healthy)
         repo s_fresh)
  = Raise (OSError 24 "Too many open files" None).
Proof. reflexivity. Qed.

(** X6: [run_copilot_agent] raises [AgentError] in two cases and no other:
    the executable is not found (nothing, or an empty path), or the child
    exited with a non-zero status. *)
Theorem AgentError_iff_missing_or_nonzero (w : World) (repo_path : Pathlib.Path)
    (s : State) :
  (∃ msg, fst (run_copilot_agent w repo_path s) = Raise (AgentError msg))
  ↔ match found_agent w with
    | None => True
    | Some cmd =>
        ∃ rc out err,
          copilot_run w (cmd_args cmd) (Pathlib.to_string repo_path) (environ s)
            = Within (Exited rc out err) ∧ rc ≠ 0%Z
    end.
Proof.
  destruct (found_agent w) as [cmd|] eqn:Hf.
  - run_cases found_agent_Some run_copilot_agent_found w repo_path s cmd Hf; simpl.
    + apply Z.eqb_eq in Hrc as ->.
      split; [intros [m H]; by destruct (write_failure_not_AgentError f m); injection H|].
      intros (r & o & e & [= <- _ _] & Hne0). done.
    + apply Z.eqb_eq in Hrc as ->. split; [intros [m H]; discriminate H|].
      intros (r & o & e & [= <- _ _] & Hne0). done.
    + apply Z.eqb_neq in Hrc. split; [|eauto]. intros _. by exists rc, out, err.
    + split; [intros [m H]; by destruct (start_failure_not_AgentError sf m);
                injection H|].
      intros (r & o & e & H & _). discriminate H.
    + split; [intros [m H]; discriminate H|].
      intros (r & o & e & H & _). discriminate H.
  - rewrite (run_copilot_agent_not_found w repo_path s Hf). simpl. split; eauto.
Qed.

(** X7: neither [CalledProcessError] nor [TimeoutExpired] leaves
    [run_copilot_agent].  An exception that does is an [AgentError], or the
    error of the operating system that kept the child from starting, or the
    error of the write to standard output after a child that exited with
    status 0; the last two leave as they were raised. *)
Theorem escaping_exceptions (w : World) (repo_path : Pathlib.Path) (s : State)
    (e : exn) :
  fst (run_copilot_agent w repo_path s) = Raise e →
  (∃ msg, e = AgentError msg)
  ∨ (∃ cmd f,
       found_agent w = Some cmd ∧ e = exn_of_start_failure f
       ∧ copilot_run w (cmd_args cmd) (Pathlib.to_string repo_path) (environ s)
         = Within (NotStarted f))
  ∨ (∃ cmd out err f,
       found_agent w = Some cmd ∧ e = exn_of_write_failure f
       ∧ copilot_run w (cmd_args cmd) (Pathlib.to_string repo_path) (environ s)
         = Within (Exited 0 out err)
       ∧ err ≠ EmptyString ∧ stdout_write w err = Some f).
Proof.
  destruct (found_agent w) as [cmd|] eqn:Hf.
  - pose proof Hf as Hf'. run_cases found_agent_Some run_copilot_agent_found w repo_path s cmd Hf; simpl.
    + apply Z.eqb_eq in Hrc as ->. intros [= <-]. right. right.
      apply relay_failure_Some in Hrelay as (_ & Hne' & Hw').
      by exists cmd, out, err, f.
    + discriminate.
    + intros [= <-]. left. eauto.
    + intros [= <-]. right. left. by exists cmd, sf.
    + discriminate.
  - rewrite (run_copilot_agent_not_found w repo_path s Hf). simpl.
    intros [= <-]. left. eauto.
Qed.

Lemma escaping_exceptions_witness :
  (∃ msg, OSError 28 "No space left on device" None = AgentError msg)
  ∨ (∃ cmd f,
       found_agent w_stdout_full = Some cmd
       ∧ OSError 28 "No space left on device" None = exn_of_start_failure f
       ∧ copilot_run w_stdout_full (cmd_args cmd) (Pathlib.to_string repo) ∅
         = Within (NotStarted f))
  ∨ (∃ cmd out err f,
       found_agent w_stdout_full = Some cmd
       ∧ OSError 28 "No space left on device" None = exn_of_write_failure f
       ∧ copilot_run w_stdout_full (cmd_args cmd) (Pathlib.to_string repo) ∅
         = Within (Exited 0 out err)
       ∧ err ≠ EmptyString ∧ stdout_write w_stdout_full err = Some f).
Proof.
  apply (escaping_exceptions w_stdout_full repo s_fresh
           (OSError 28 "No space left on device" None)).
  reflexivity.
Defined.

(** With the executable found, the events of a call are those up to the
    spawn followed by records that are no warnings. *)
Lemma events_after_spawn (w : World) (repo_path : Pathlib.Path) (s : State)
    (cmd : string) :
  found_agent w = Some cmd →
  ∃ evs,
    new_events s (snd (run_copilot_agent w repo_path s))
      = (evs ++ spawn_events cmd repo_path (environ s))%list
    ∧ ∀ ev, In ev evs → ∀ msg, ev ≠ Log WARNING msg.
Proof.
  intros Hf.
  assert (Hrel : ∀ err ev, In ev (relayed_stderr err) → ∀ msg, ev ≠ Log WARNING msg).
  { intros err ev Hin msg. unfold relayed_stderr in Hin.
    destruct (py_truthy (VStr err)); [|done]. destruct Hin as [<-|[]]. discriminate. }
  run_cases found_agent_Some run_copilot_agent_found w repo_path s cmd Hf; simpl; rewrite new_events_add_events.
  - exists (Log ERROR ("Unexpected error running Copilot CLI: "
                         ++ exn_str w (exn_of_write_failure f)) :: relayed_stderr err).
    split; [reflexivity|]. intros ev [<-|Hin] msg; [discriminate|]. by eapply Hrel.
  - exists (metric_logs (PyText.splitlines (decode_utf8_replace err))
            ++ [Log INFO "Copilot CLI run complete"] ++ relayed_stderr err)%list.
    split; [by rewrite <- !app_assoc|].
    intros ev Hin msg. rewrite !in_app_iff in Hin. destruct Hin as [Hin|[Hin|Hin]].
    + pose proof (metric_logs_are_logs (PyText.splitlines (decode_utf8_replace err))) as HF.
      rewrite List.Forall_forall in HF. destruct (HF ev Hin) as (l & _ & _ & ->).
      discriminate.
    + destruct Hin as [<-|[]]. discriminate.
    + by eapply Hrel.
  - eexists [_]. split; [reflexivity|]. intros ev [<-|[]] msg. discriminate.
  - eexists [_]. split; [reflexivity|]. intros ev [<-|[]] msg. discriminate.
  - eexists [_]. split; [reflexivity|]. intros ev [<-|[]] msg. discriminate.
Qed.

#[local] Transparent spawn_events.

(** X8: with the executable found, the warning about [GH_TOKEN] is logged
    exactly when the variable is unset or empty in [os.environ]; the child
    is spawned in either case. *)
Theorem gh_token_warning_iff_absent (w : World) (repo_path : Pathlib.Path)
    (s : State) (cmd : string) :
  found_agent w = Some cmd →
  (In gh_token_warning (new_events s (snd (run_copilot_agent w repo_path s)))
   ↔ (environ s !! "GH_TOKEN" = None ∨ environ s !! "GH_TOKEN" = Some EmptyString))
  ∧ In (Spawn (cmd_args cmd) (Pathlib.to_string repo_path))
       (new_events s (snd (run_copilot_agent w repo_path s))).
Proof.
  intros Hf. destruct (events_after_spawn w repo_path s cmd Hf) as (evs & Hev & Hlogs).
  rewrite Hev. split.
  - rewrite in_app_iff. unfold spawn_events. simpl.
    unfold gh_token_events, os_getenv, gh_token_warning.
    destruct (environ s !! "GH_TOKEN") as [[|c t]|]; simpl.
    + split; [intros _; by right|]. intros _. right. right. by left.
    + split; [|intros [H|H]; discriminate H].
      intros [H|[H|[H|[H|[H|[]]]]]]; try discriminate H.
      by destruct (Hlogs _ H "GH_TOKEN not found in environment").
    + split; [intros _; by left|]. intros _. right. right. by left.
  - apply in_app_iff. right. unfold spawn_events. by left.
Qed.

Lemma gh_token_warning_witness :
  In gh_token_warning
     (new_events s_fresh (snd (run_copilot_agent w_healthy repo s_fresh)))
  ↔ ((∅ : gmap string string) !! "GH_TOKEN" = None
     ∨ (∅ : gmap string string) !! "GH_TOKEN" = Some EmptyString).
Proof.
  apply (gh_token_warning_iff_absent w_healthy repo s_fresh "/usr/bin/copilot").
  reflexivity.
Defined.

(** ** More on the metrics extractor *)

Lemma metric_logs_app (l1 l2 : list string) :
  metric_logs (l1 ++ l2) = (metric_logs l2 ++ metric_logs l1)%list.
Proof.
  unfold metric_logs. by rewrite List.filter_app, map_app, rev_app_distr.
Qed.

(** X9: scanning two stretches of output one after the other is scanning
    their concatenation: [parse_metrics] keeps nothing between lines. *)
Theorem parse_metrics_concatenation (l1 l2 : list string) (s : State) :
  parse_metrics (l1 ++ l2) s = parse_metrics l2 (snd (parse_metrics l1 s)).
Proof.
  rewrite !parse_metrics_run. simpl.
  by rewrite metric_logs_app, add_events_app.
Qed.

(** X10: [parse_metrics] logs a line, prefixed by "Metric: ", exactly when
    the line is one of those given and its lower-case form contains "tokens"
    or "cost".  Stated for lines of ASCII text, on which [lower] is
    [str.lower]. *)
Theorem metric_logged_iff_mentioned (lines : list string) (line : string) (s : State) :
  Forall (fun l => is_ascii l = true) lines →
  (In (Log INFO ("Metric: " ++ line)) (new_events s (snd (parse_metrics lines s)))
   ↔ In line lines ∧ mentions_metric line = true).
Proof.
  intros _. rewrite parse_metrics_run. simpl. rewrite new_events_add_events.
  unfold metric_logs. rewrite <- in_rev, in_map_iff. split.
  - intros (l & Heq & Hin). cbn in Heq. simplify_eq. by apply filter_In in Hin.
  - intros Hin. exists line. split; [done|]. by apply filter_In.
Qed.

Lemma metric_logged_witness :
  In (Log INFO "Metric: cost: 3")
     (new_events s_fresh (snd (parse_metrics ["start"; "cost: 3"] s_fresh)))
  ↔ In "cost: 3" ["start"; "cost: 3"] ∧ mentions_metric "cost: 3" = true.
Proof.
  apply (metric_logged_iff_mentioned ["start"; "cost: 3"] "cost: 3" s_fresh).
  repeat constructor.
Defined.

Lemma lower_app (a b : string) :
  PyText.lower (a ++ b) = PyText.lower a ++ PyText.lower b.
Proof. induction a as [|c a IH]; simpl; [done|]. by rewrite IH. Qed.

Lemma prefix_app (a b : string) : String.prefix a (a ++ b) = true.
Proof.
  induction a as [|c a IH]; simpl; [by destruct b|].
  destruct (ascii_dec c c); [exact IH|done].
Qed.

Lemma contains_unfold (sub s : string) :
  PyText.contains sub s
  = String.prefix sub s
    || match s with
       | EmptyString => false
       | String _ s' => PyText.contains sub s'
       end.
Proof. by destruct s. Qed.

Lemma contains_infix (pre sub post : string) :
  PyText.contains sub (pre ++ sub ++ post) = true.
Proof.
  induction pre as [|c pre IH].
  - change (EmptyString ++ sub ++ post) with (sub ++ post).
    by rewrite contains_unfold, prefix_app.
  - change (String c pre ++ sub ++ post) with (String c (pre ++ sub ++ post)).
    rewrite contains_unfold, IH. by rewrite orb_true_r.
Qed.

(** X11: the match is blind to letter case: a line that holds "tokens" or
    "cost" in any mix of upper and lower case, anywhere in it, is logged. *)
Theorem metric_match_ignores_case (lines : list string) (pre word post : string)
    (s : State) :
  In (pre ++ word ++ post) lines →
  PyText.lower word = "tokens" ∨ PyText.lower word = "cost" →
  In (Log INFO ("Metric: " ++ pre ++ word ++ post))
     (new_events s (snd (parse_metrics lines s))).
Proof.
  intros Hin Hword. rewrite parse_metrics_run. simpl. rewrite new_events_add_events.
  unfold metric_logs. rewrite <- in_rev, in_map_iff.
  exists (pre ++ word ++ post). split; [done|]. apply filter_In. split; [done|].
  unfold mentions_metric. rewrite !lower_app.
  destruct Hword as [-> | ->]; rewrite contains_infix; [done|by rewrite orb_true_r].
Qed.

Lemma metric_match_ignores_case_witness :
  In (Log INFO "Metric: Total TOKENS: 42")
     (new_events s_fresh (snd (parse_metrics ["start"; "Total TOKENS: 42"] s_fresh))).
Proof.
  apply (metric_match_ignores_case ["start"; "Total TOKENS: 42"] "Total " "TOKENS" ": 42"
           s_fresh).
  - right. left. reflexivity.
  - left. reflexivity.
Defined.

(** ** More on the repository root *)

(** X12: whatever [git] answers, and also when it cannot be started,
    [_get_git_root] starts it once, in the directory of the script, and
    leaves no other mark on the process: no log record, no change of
    [os.environ] or of the singleton. *)
Theorem get_git_root_spawns_git_once (w : World) (s : State) :
  snd (_get_git_root w s)
  = add_events
      [Spawn ["git"; "rev-parse"; "--show-toplevel"]
         (Pathlib.to_string (Pathlib.parent (Pathlib.of_string (script_file w))))] s.
Proof. by rewrite get_git_root_run. Qed.

Lemma rstrip_all_space (ws : string) : all_space ws = true → PyText.rstrip ws = EmptyString.
Proof.
  induction ws as [|c ws IH]; simpl; [done|].
  intros [Hc Hws]%andb_prop. by rewrite (IH Hws), Hc.
Qed.

Lemma lstrip_all_space (ws s : string) :
  all_space ws = true → PyText.lstrip (ws ++ s) = PyText.lstrip s.
Proof.
  induction ws as [|c ws IH]; simpl; [done|].
  intros [Hc Hws]%andb_prop. by rewrite Hc, (IH Hws).
Qed.

Lemma lstrip_only_space (ws : string) :
  all_space ws = true → PyText.lstrip ws = EmptyString.
Proof.
  induction ws as [|c ws IH]; simpl; [done|].
  intros [Hc Hws]%andb_prop. by rewrite Hc, (IH Hws).
Qed.

Lemma rstrip_app_space (s ws : string) :
  all_space ws = true → PyText.rstrip (s ++ ws) = PyText.rstrip s.
Proof.
  intros Hws. induction s as [|c s IH]; simpl.
  - by apply rstrip_all_space.
  - by rewrite IH.
Qed.

Lemma strip_app_space (s ws : string) :
  all_space ws = true → PyText.strip (s ++ ws) = PyText.strip s.
Proof.
  intros Hws. unfold PyText.strip. induction s as [|c s IH].
  - change (EmptyString ++ ws) with ws. by rewrite (lstrip_only_space ws Hws).
  - change (String c s ++ ws) with (String c (s ++ ws)).
    cbn [PyText.lstrip]. destruct (PyText.is_space c); [exact IH|].
    by apply (rstrip_app_space (String c s)).
Qed.

(** X13: white space around the answer of [git], such as the newline that
    ends it, does not reach the path returned.  Stated for an answer of
    ASCII text, on which [strip] is [str.strip]. *)
Theorem git_root_ignores_surrounding_space (w : World) (s : State)
    (lead out trail err : string) :
  git_rev_parse w (Pathlib.to_string (git_cwd w))
    = GitExited 0 (lead ++ out ++ trail) err →
  all_space lead = true → all_space trail = true → is_ascii out = true →
  fst (_get_git_root w s) = Ok (Pathlib.of_string (PyText.strip out)).
Proof.
  intros Hgit Hlead Htrail _. rewrite get_git_root_run, Hgit. simpl.
  unfold PyText.strip at 1. rewrite (lstrip_all_space lead _ Hlead).
  change (PyText.rstrip (PyText.lstrip (out ++ trail))) with (PyText.strip (out ++ trail)).
  by rewrite (strip_app_space out trail Htrail).
Qed.

Lemma git_root_ignores_space_witness :
  fst (_get_git_root w_healthy s_fresh) = Ok (Pathlib.of_string (PyText.strip "/repo")).
Proof.
  apply (git_root_ignores_surrounding_space w_healthy s_fresh EmptyString "/repo" newline
           EmptyString); reflexivity.
Defined.

Lemma removelast_take {A} (l : list A) : removelast l = take (List.length l - 1) l.
Proof.
  induction l as [|x l IH]; [done|].
  destruct l as [|y l]; [done|].
  change (removelast (x :: y :: l)) with (x :: removelast (y :: l)).
  rewrite IH. simpl. by rewrite Nat.sub_0_r.
Qed.

(** X14: when [git] exits with a non-zero status the root is the path of the
    script less its last three components, with the same anchor; a script
    path of three components or fewer gives the bare anchor (the current
    directory when the path is relative). *)
Theorem fallback_drops_three_components (w : World) (s : State) (rc : Z)
    (out err : string) :
  git_rev_parse w (Pathlib.to_string (git_cwd w)) = GitExited rc out err →
  rc ≠ 0%Z →
  fst (_get_git_root w s)
  = Ok (Pathlib.mkPath
          (Pathlib.anchor (Pathlib.of_string (script_file w)))
          (take (List.length (Pathlib.parts (Pathlib.of_string (script_file w))) - 3)
                (Pathlib.parts (Pathlib.of_string (script_file w))))).
Proof.
  intros Hgit Hrc. rewrite get_git_root_run, Hgit. simpl.
  apply Z.eqb_neq in Hrc. rewrite Hrc. f_equal.
  unfold fallback_root, Pathlib.parent. simpl. f_equal.
  rewrite !removelast_take, !length_take, !take_take. f_equal. lia.
Qed.

Lemma fallback_witness :
  fst (_get_git_root (with_git (GitExited 128 EmptyString "fatal: not a git repository")
                        w_healthy) s_fresh)
  = Ok (Pathlib.mkPath "/" ["repo"]).
Proof.
  apply (fallback_drops_three_components
           (with_git (GitExited 128 EmptyString "fatal: not a git repository") w_healthy)
           s_fresh 128 EmptyString "fatal: not a git repository").
  - reflexivity.
  - lia.
Defined.

(** ** More on configuration resolution *)

(** X15: [Config.load] returns for no surroundings.  When [git] was started
    and its output is text, whatever its exit status and output, the call
    [cls(root=root)] of [PathConfig.from_root] raises [TypeError]; when the
    output of [git] does not decode, [UnicodeDecodeError] is raised; when
    [git] could not be started, the error of the operating system.  In
    every case the one event is the start of [git]: the schema file is not
    opened. *)
Theorem Config_load_always_raises (w : World) (s : State) :
  ∃ e,
    Config_load w s = (Raise e, add_events [git_spawned w] s)
    ∧ (∀ rc out err,
         git_rev_parse w (Pathlib.to_string (git_cwd w)) = GitExited rc out err →
         e = TypeError "PathConfig() takes no arguments")
    ∧ (∀ rc reason,
         git_rev_parse w (Pathlib.to_string (git_cwd w)) = GitUndecodable rc reason →
         e = UnicodeDecodeError reason)
    ∧ (∀ f,
         git_rev_parse w (Pathlib.to_string (git_cwd w)) = GitNotStarted f →
         e = exn_of_start_failure f).
Proof.
  exists (load_failure w). split; [apply Config_load_run|].
  unfold load_failure. split; [|split].
  - by intros rc out err ->.
  - by intros rc reason ->.
  - by intros f ->.
Qed.

(** X16: a call of [get_config] that finds the singleton unset runs
    [load_dotenv] before the resolution, and what becomes of the resolution
    does not undo it: after the call every variable that was set has kept
    its value, and every variable that was unset has the value the [.env]
    file gives it, if any. *)
Theorem dotenv_applied_before_resolution (w : World) (s : State) :
  _config s = VNone →
  (∀ k v, environ s !! k = Some v →
     environ (snd (get_config w s)) !! k = Some v)
  ∧ (∀ k, environ s !! k = None →
       environ (snd (get_config w s)) !! k = dotenv_values w !! k).
Proof.
  intros Hnone. rewrite (get_config_unset w s Hnone). simpl. split.
  - intros k v Hk. by apply lookup_union_Some_l.
  - intros k Hk. by apply lookup_union_r.
Qed.

Lemma dotenv_witness :
  environ (snd (get_config (with_dotenv {[ "GH_TOKEN" := "from-file" ]} w_healthy)
                  s_fresh)) !! "GH_TOKEN"
  = Some "from-file".
Proof.
  destruct (dotenv_applied_before_resolution
              (with_dotenv {[ "GH_TOKEN" := "from-file" ]} w_healthy) s_fresh eq_refl)
    as [_ Hunset].
  rewrite (Hunset "GH_TOKEN"); reflexivity.
Defined.

(** ** More on the credential accessor *)

(** X17: [resolve_ado_token] reads and never writes: whatever it is given
    and however it ends, the process is as before; and a value it returns
    is the [env.ado_token] of its argument and is true in Python's sense, so
    never [None] and never the empty string. *)
Theorem resolve_ado_token_reads_only (self : pyval) (s : State) :
  snd (resolve_ado_token self s) = s
  ∧ ∀ token, fst (resolve_ado_token self s) = Ok token →
      py_truthy token = true
      ∧ ∃ oid eoid cls ecls attrs eattrs,
          self = VObj oid cls attrs
          ∧ attrs !! "env" = Some (VObj eoid ecls eattrs)
          ∧ eattrs !! "ado_token" = Some token.
Proof.
  unfold resolve_ado_token, py_getattr. unfold bind, ret, raise.
  destruct self as [| | | | | | | |oid cls attrs]; simpl;
    try (split; [reflexivity|discriminate]).
  destruct (attrs !! "env") as [env|] eqn:Henv; simpl;
    [|split; [reflexivity|discriminate]].
  destruct env as [| | | | | | | |eoid ecls eattrs]; simpl;
    try (split; [reflexivity|discriminate]).
  destruct (eattrs !! "ado_token") as [tok|] eqn:Htok; simpl;
    [|split; [reflexivity|discriminate]].
  destruct (py_truthy tok) eqn:Ht; simpl; (split; [reflexivity|]); [|discriminate].
  intros token [= <-]. split; [done|]. by exists oid, eoid, cls, ecls, attrs, eattrs.
Qed.

(** X18: the accessor raises two kinds of exception and no other:
    [ConfigurationError], with its fixed message, when [env.ado_token] is
    there and false in Python's sense, and [AttributeError] when its
    argument has no [env] or the [env] has no [ado_token]. *)
Theorem resolve_ado_token_errors (self : pyval) (s : State) (e : exn) :
  fst (resolve_ado_token self s) = Raise e →
  e = ConfigurationError "ADO_TOKEN environment variable is required"
  ∨ ∃ owner, e = no_attribute owner "env" ∨ e = no_attribute owner "ado_token".
Proof.
  unfold resolve_ado_token, py_getattr. unfold bind, ret, raise.
  destruct self as [| | | | | | | |oid cls attrs]; simpl;
    try (intros [= <-]; right; eexists; left; reflexivity).
  destruct (attrs !! "env") as [env|] eqn:Henv; simpl;
    [|intros [= <-]; right; eexists; left; reflexivity].
  destruct env as [| | | | | | | |eoid ecls eattrs]; simpl;
    try (intros [= <-]; right; eexists; right; reflexivity).
  destruct (eattrs !! "ado_token") as [tok|] eqn:Htok; simpl;
    [|intros [= <-]; right; eexists; right; reflexivity].
  destruct (py_truthy tok); simpl; [discriminate|]. intros [= <-]. by left.
Qed.

Lemma resolve_ado_token_errors_witness :
  ConfigurationError "ADO_TOKEN environment variable is required"
    = ConfigurationError "ADO_TOKEN environment variable is required"
  ∨ ∃ owner,
      ConfigurationError "ADO_TOKEN environment variable is required"
        = no_attribute owner "env"
      ∨ ConfigurationError "ADO_TOKEN environment variable is required"
        = no_attribute owner "ado_token".
Proof.
  apply (resolve_ado_token_errors (config_of ∅) s_fresh). reflexivity.
Defined.

Example resolve_ado_token_on_bare_instance :
  fst (resolve_ado_token (VObj 0 Config ∅) s_fresh)
  = Raise (AttributeError "'Config' object has no attribute 'env'").
Proof. reflexivity. Qed.

(** ** More on the schema lookup *)

(** X19: a pattern that is present is returned as it stands, whatever kind
    of value it is; the lookup does not check that it is a string. *)
Theorem present_pattern_is_returned_verbatim (d p i : gmap string pyval) (v : pyval) :
  d !! "properties" = Some (VDict p) →
  p !! "instance_id" = Some (VDict i) →
  i !! "pattern" = Some v →
  schema_instance_pattern (VDict d) = Ok v.
Proof.
  intros Hp Hi Hv. unfold schema_instance_pattern, py_get.
  rewrite Hp. simpl. rewrite Hi. simpl. by rewrite Hv.
Qed.

Lemma present_pattern_witness :
  schema_instance_pattern
    (VDict {[ "properties" := VDict {[ "instance_id" := VDict {[ "pattern" := VInt 7 ]} ]} ]})
  = Ok (VInt 7).
Proof.
  apply (present_pattern_is_returned_verbatim _
           {[ "instance_id" := VDict {[ "pattern" := VInt 7 ]} ]}
           {[ "pattern" := VInt 7 ]}); reflexivity.
Defined.

(** X20: the lookup succeeds exactly on the schemas on which each [get] has
    a dictionary to ask (the document, [properties] when present,
    [instance_id] when present), and on every other schema it raises
    [AttributeError] and nothing else. *)
Theorem schema_lookup_outcomes (schema : pyval) :
  if well_shaped schema
  then ∃ v, schema_instance_pattern schema = Ok v
  else ∃ owner, schema_instance_pattern schema = Raise (no_attribute owner "get").
Proof.
  unfold well_shaped, schema_instance_pattern, py_get.
  destruct schema as [| | | | | |d| |]; try (eexists; reflexivity).
  destruct (d !! "properties") as [props|]; simpl.
  - destruct props as [| | | | | |p| |]; try (eexists; reflexivity).
    destruct (p !! "instance_id") as [inst|]; simpl.
    + destruct inst; eexists; reflexivity.
    + eexists; reflexivity.
  - eexists; reflexivity.
Qed.

(** ** More on the environment snapshot *)

(** X21: the arguments [from_environment] builds depend on five variables
    and on nothing else in [os.environ]: environments that agree on
    [ADO_TOKEN], [GITHUB_OUTPUT], [GITHUB_STEP_SUMMARY], [GITHUB_ACTIONS] and
    [RUNNER_DEBUG] give the same arguments. *)
Theorem snapshot_reads_five_variables (env env' : gmap string string) :
  (∀ k, In k snapshot_variables → env !! k = env' !! k) →
  from_environment_kwargs env = from_environment_kwargs env'.
Proof.
  intros H. unfold from_environment_kwargs, os_getenv.
  rewrite (H "ADO_TOKEN"), (H "GITHUB_OUTPUT"), (H "GITHUB_STEP_SUMMARY"),
    (H "GITHUB_ACTIONS"), (H "RUNNER_DEBUG"); [done|..];
    unfold snapshot_variables; simpl; tauto.
Qed.

Lemma snapshot_witness :
  from_environment_kwargs {[ "GITHUB_ACTIONS" := "true" ]}
  = from_environment_kwargs {[ "GITHUB_ACTIONS" := "true"; "HOME" := "/root" ]}.
Proof.
  apply snapshot_reads_five_variables.
  intros k Hk. simpl in Hk.
  destruct Hk as [<-|[<-|[<-|[<-|[<-|[]]]]]]; reflexivity.
Defined.

(** ** The entry point *)

(** What [main] does, by outcome of [mkdir] and of [run_copilot_agent]. *)
Lemma main_run (str_of : pyval → string) (h : Host) (p : Process) :
  main str_of h p =
    let s1 := add_events [banner] (proc p) in
    let dirs := logs_dir h :: made p in
    match mkdir h (logs_dir h) with
    | Some why =>
        (Raise (exn_of_os_failure why (logs_dir h)), {| proc := s1; made := dirs |})
    | None =>
        match run_copilot_agent (world h) (cwd h) s1 with
        | (Ok (_, true), s2) =>
            (Ok Returned,
             {| proc := add_events
                          [script_completed;
                           Log INFO "✓ Copilot CLI execution completed successfully"] s2;
                made := dirs |})
        | (Ok (_, false), s2) =>
            (Ok Returned,
             {| proc := add_events
                          [script_completed;
                           Log WARNING "⚠ Copilot CLI execution completed with warnings"] s2;
                made := dirs |})
        | (Raise e, s2) =>
            (Ok (SysExit 1),
             {| proc := add_events
                          [Log ERROR ((match e with
                                       | AgentError _ => "✗ Agent error: "
                                       | _ => "✗ Unexpected error: "
                                       end) ++ exn_str (world h) e)] s2;
                made := dirs |})
        end
    end.
Proof.
  unfold main, path_mkdir, logs_dir, banner, script_completed.
  unfold bindP at 1 2. unfold in_proc at 1. unfold logger_info at 1. unfold emit at 1.
  cbn [proc made]. destruct (mkdir h _) as [why|]; [reflexivity|].
  unfold bindP at 1. unfold try_exceptP. unfold bindP at 1. unfold in_proc at 1.
  cbn [proc made].
  destruct (run_copilot_agent (world h) (cwd h) _) as [[[metrics success]|e] s2] eqn:Hrun.
  - apply run_copilot_agent_metrics_None in Hrun as ->.
    destruct success; reflexivity.
  - destruct e; reflexivity.
Qed.

Lemma main_after_mkdir (str_of : pyval → string) (h : Host) (p : Process) (cmd : string) :
  mkdir h (logs_dir h) = None →
  found_agent (world h) = Some cmd →
  main str_of h p =
    let s1 := add_events [banner] (proc p) in
    let dirs := logs_dir h :: made p in
    let pre := spawn_events cmd (cwd h) (environ (proc p)) in
    match copilot_run (world h) (cmd_args cmd) (Pathlib.to_string (cwd h))
            (environ (proc p)) with
    | Expired =>
        (Ok Returned,
         {| proc := add_events
                      ([script_completed;
                        Log WARNING "⚠ Copilot CLI execution completed with warnings";
                        Log ERROR "Copilot CLI timed out after 300 seconds"] ++ pre) s1;
            made := dirs |})
    | Within (Exited rc _ err) =>
        if (rc =? 0)%Z then
          match relay_failure (world h) err with
          | None =>
              (Ok Returned,
               {| proc := add_events
                            ([script_completed;
                              Log INFO "✓ Copilot CLI execution completed successfully"]
                               ++ metric_logs (PyText.splitlines (decode_utf8_replace err))
                               ++ [Log INFO "Copilot CLI run complete"]
                               ++ relayed_stderr err ++ pre) s1;
                  made := dirs |})
          | Some f =>
              (Ok (SysExit 1),
               {| proc := add_events
                            ([Log ERROR ("✗ Unexpected error: "
                                           ++ exn_str (world h) (exn_of_write_failure f));
                              Log ERROR ("Unexpected error running Copilot CLI: "
                                           ++ exn_str (world h) (exn_of_write_failure f))]
                               ++ relayed_stderr err ++ pre) s1;
                  made := dirs |})
          end
        else
          (Ok (SysExit 1),
           {| proc := add_events
                        ([Log ERROR ("✗ Agent error: " ++ agent_failure_msg (world h) cmd rc);
                          Log ERROR ("Copilot CLI execution failed with error "
                                       ++ PyText.repr_bytes err)] ++ pre) s1;
              made := dirs |})
    | Within (NotStarted f) =>
        (Ok (SysExit 1),
         {| proc := add_events
                      ([Log ERROR ("✗ Unexpected error: "
                                     ++ exn_str (world h) (exn_of_start_failure f));
                        Log ERROR ("Unexpected error running Copilot CLI: "
                                     ++ exn_str (world h) (exn_of_start_failure f))]
                         ++ pre) s1;
            made := dirs |})
    end.
Proof.
  intros Hmk Hf. apply found_agent_Some in Hf as [Hw Hne].
  rewrite main_run. cbv zeta. rewrite Hmk.
  rewrite (run_copilot_agent_found (world h) (cwd h) _ cmd Hw Hne).
  cbn [environ add_events].
  destruct (copilot_run (world h) _ _ _) as [[rc out err|sf]|].
  - destruct (rc =? 0)%Z; [|reflexivity].
    destruct (relay_failure (world h) err) as [f|].
    + destruct f; reflexivity.
    + rewrite add_events_app. reflexivity.
  - destruct sf as [[]|]; reflexivity.
  - reflexivity.
Qed.

Lemma main_agent_not_found (str_of : pyval → string) (h : Host) (p : Process) :
  mkdir h (logs_dir h) = None →
  found_agent (world h) = None →
  main str_of h p =
    (Ok (SysExit 1),
     {| proc := add_events
                  (Log ERROR ("✗ Agent error: " ++ agent_missing_msg)
                     :: prologue_events (cwd h))
                  (add_events [banner] (proc p));
        made := logs_dir h :: made p |}).
Proof.
  intros Hmk Hf. rewrite main_run. cbv zeta. rewrite Hmk.
  by rewrite (run_copilot_agent_not_found (world h) (cwd h) _ Hf).
Qed.


(** A standard output that refuses the relayed standard error ends the
    script through [sys.exit(1)], although the child exited with status 0. *)
Example full_stdout_ends_main_with_exit_1 :
  fst (main no_text (host_of (w_stdout_full)) (p_start ∅)) = Ok (SysExit 1).
Proof. reflexivity. Qed.

(** X23: a timeout is no failure for [main]: it logs a warning and the
    closing record and returns, so the script ends with status 0. *)
Theorem timeout_ends_with_warning (str_of : pyval → string) (h : Host) (p : Process)
    (cmd : string) :
  mkdir h (logs_dir h) = None →
  found_agent (world h) = Some cmd →
  copilot_run (world h) (cmd_args cmd) (Pathlib.to_string (cwd h)) (environ (proc p))
    = Expired →
  main str_of h p
  = (Ok Returned,
     {| proc := add_events
                  ([script_completed;
                    Log WARNING "⚠ Copilot CLI execution completed with warnings";
                    Log ERROR "Copilot CLI timed out after 300 seconds"]
                     ++ spawn_events cmd (cwd h) (environ (proc p)) ++ [banner])
                  (proc p);
        made := logs_dir h :: made p |}).
Proof.
  intros Hmk Hf Hrun. rewrite (main_after_mkdir str_of h p cmd Hmk Hf). cbv zeta.
  rewrite Hrun, add_events_app. by rewrite <- !app_assoc.
Qed.

Lemma timeout_main_witness :
  fst (main no_text (host_of w_agent_hangs) (p_start ∅)) = Ok Returned.
Proof.
  exact (f_equal fst (timeout_ends_with_warning no_text (host_of w_agent_hangs)
                        (p_start ∅) "/usr/bin/copilot" eq_refl eq_refl eq_refl)).
Defined.

(** X24: the log directory is made outside the [try]: when [mkdir] fails its
    error leaves [main] uncaught, after the opening record alone; the
    executable is not looked up and no process is spawned. *)
Theorem mkdir_failure_is_uncaught (str_of : pyval → string) (h : Host) (p : Process)
    (why : os_failure) :
  mkdir h (logs_dir h) = Some why →
  main str_of h p
  = (Raise (exn_of_os_failure why (logs_dir h)),
     {| proc := add_events [banner] (proc p); made := logs_dir h :: made p |}).
Proof. intros Hmk. rewrite main_run. cbv zeta. by rewrite Hmk. Qed.

Lemma mkdir_failure_witness :
  main no_text (host_readonly w_healthy) (p_start ∅)
  = (Raise (PermissionError "/repo/copilot_logs"),
     {| proc := add_events [banner] (proc (p_start ∅)); made := ["/repo/copilot_logs"] |}).
Proof.
  apply (mkdir_failure_is_uncaught no_text (host_readonly w_healthy) (p_start ∅)
           NoPermission).
  reflexivity.
Defined.

Lemma new_events_add_events_twice (a b : list event) (s : State) :
  new_events s (add_events a (add_events b s)) = (a ++ b)%list.
Proof. by rewrite add_events_app, new_events_add_events. Qed.

Lemma filter_collected_spawn_events (cmd : string) (repo_path : Pathlib.Path)
    (env : gmap string string) :
  List.filter is_metrics_collected (spawn_events cmd repo_path env) = [].
Proof.
  unfold spawn_events, gh_token_events, prologue_events.
  by destruct (py_truthy (os_getenv env "GH_TOKEN")).
Qed.

Lemma filter_collected_relayed_stderr (err : string) :
  List.filter is_metrics_collected (relayed_stderr err) = [].
Proof. unfold relayed_stderr. by destruct (py_truthy (VStr err)). Qed.

(** X25: [main] never writes the record "Metrics collected" of line 266:
    whatever the surroundings, and however a value would be printed, no
    record that [main] adds to the log starts with these words. *)
Theorem main_never_logs_metrics_collected (str_of : pyval → string) (h : Host)
    (p : Process) :
  List.filter is_metrics_collected (new_events (proc p) (proc (snd (main str_of h p))))
  = [].
Proof.
  destruct (mkdir h (logs_dir h)) as [why|] eqn:Hmk.
  - rewrite main_run. cbv zeta. rewrite Hmk. cbn [snd proc].
    by rewrite new_events_add_events.
  - destruct (found_agent (world h)) as [cmd|] eqn:Hf.
    + rewrite (main_after_mkdir str_of h p cmd Hmk Hf). cbv zeta.
      destruct (copilot_run (world h) _ _ _) as [[rc out err|sf]|].
      * destruct (rc =? 0)%Z.
        -- destruct (relay_failure (world h) err) as [f|]; cbn [snd proc];
             rewrite new_events_add_events_twice, !List.filter_app,
               ?filter_metric_logs, filter_collected_relayed_stderr,
               filter_collected_spawn_events; done.
        -- cbn [snd proc].
           by rewrite new_events_add_events_twice, !List.filter_app,
             filter_collected_spawn_events.
      * cbn [snd proc].
        by rewrite new_events_add_events_twice, !List.filter_app,
          filter_collected_spawn_events.
      * cbn [snd proc].
        by rewrite new_events_add_events_twice, !List.filter_app,
          filter_collected_spawn_events.
    + rewrite (main_agent_not_found str_of h p Hmk Hf). cbn [snd proc].
      by rewrite new_events_add_events_twice.
Qed.

(** X26: an exception that leaves [run_copilot_agent] ends the script
    through [sys.exit(1)], after one record in the error log that carries
    its text: headed "Agent error" for an [AgentError], "Unexpected error"
    for any other; the closing record is not written. *)
Theorem agent_exception_exits_1 (str_of : pyval → string) (h : Host) (p : Process)
    (e : exn) (s2 : State) :
  mkdir h (logs_dir h) = None →
  run_copilot_agent (world h) (cwd h) (add_events [banner] (proc p)) = (Raise e, s2) →
  main str_of h p
  = (Ok (SysExit 1),
     {| proc := add_events
                  [Log ERROR ((match e with
                               | AgentError _ => "✗ Agent error: "
                               | _ => "✗ Unexpected error: "
                               end) ++ exn_str (world h) e)] s2;
        made := logs_dir h :: made p |}).
Proof. intros Hmk Hrun. rewrite main_run. cbv zeta. by rewrite Hmk, Hrun. Qed.

Lemma agent_exception_witness :
  fst (main no_text (host_of w_agent_absent) (p_start ∅)) = Ok (SysExit 1).
Proof.
  exact (f_equal fst (agent_exception_exits_1 no_text (host_of w_agent_absent)
                        (p_start ∅) (AgentError agent_missing_msg) _ eq_refl eq_refl)).
Defined.

